(** * Operator shift management: distribution calculator and shift generator

    A shallow embedding of [src/lib/distribution-utils.ts] and of the
    calculation code of the distribution page ([DistributionPage]).

    Numbers.  The quantities that the application stores (hours, head counts,
    call volumes, the system parameters) are whole numbers in the safe range
    of JavaScript, up to 2^53 - 1 in absolute value, where sums, products and
    the decimal printing of numbers are exact; they are modelled as [Z].  A
    quotient of two integers that is rounded at once ([Math.ceil (a / b)],
    [Math.floor (a / b)]) is taken exactly.  The share of a province on the
    distribution page, the double [operators / total], and its product with
    the operators needed are IEEE doubles, computed with the standard
    library's [SpecFloat].  In [calculateOptimalDistribution] the share is
    kept an exact rational; what is proved of that function does not depend
    on how the share is rounded.  The JavaScript remainder [%] truncates
    towards zero and is [Z.rem].

    Strings.  [HH:MM] strings are Rocq strings; [toString], [padStart],
    [split] and [parseInt] are modelled on them.  [parseInt] returns [None]
    where JavaScript returns [NaN]. *)

From Stdlib Require Import ZArith QArith Qround Lia List Ascii String.
From Stdlib Require Import Decimal DecimalString DecimalPos DecimalZ.
From Stdlib Require SpecFloat.
From stdpp Require Import gmap strings list fin_maps.

Local Open Scope string_scope.
Local Open Scope Z_scope.

(** ** JavaScript primitives used by the code *)

Module JS.

(** [n.toString()] for an integer [n] of the safe range: all its decimal
    digits (JavaScript changes to exponent notation from 1e21). *)
Definition toString (n : Z) : string :=
  NilEmpty.string_of_int (Z.to_int n).

Fixpoint repeat_char (c : ascii) (n : nat) : string :=
  match n with
  | O => EmptyString
  | S n' => String c (repeat_char c n')
  end.

(** [s.padStart(targetLength, c)] for a one-character pad string. *)
Definition padStart (targetLength : nat) (c : ascii) (s : string) : string :=
  repeat_char c (targetLength - String.length s) ++ s.

(** [a % b]: the sign follows the dividend. *)
Definition rem (a b : Z) : Z := Z.rem a b.

(** [Math.floor(a / b)]. *)
Definition floor_div (a b : Z) : Z := Qfloor (inject_Z a / inject_Z b).

(** [Math.ceil(a / b)]. *)
Definition ceil_div (a b : Z) : Z := Qceiling (inject_Z a / inject_Z b).

(** [s.split(sep)] for a one-character separator. *)
Fixpoint split_aux (sep : ascii) (cur : string) (s : string) : list string :=
  match s with
  | EmptyString => [cur]
  | String c s' =>
      if Ascii.eqb c sep then cur :: split_aux sep EmptyString s'
      else split_aux sep (cur ++ String c EmptyString) s'
  end.

Definition split (sep : ascii) (s : string) : list string :=
  split_aux sep EmptyString s.

Definition digit_of_ascii (c : ascii) : option Z :=
  let n := Z.of_nat (nat_of_ascii c) in
  if ((48 <=? n) && (n <=? 57))%Z then Some (n - 48)%Z else None.

(** White space skipped by [parseInt] (the ASCII part of it). *)
Definition is_space (c : ascii) : bool :=
  let n := nat_of_ascii c in
  (n =? 32)%nat || (n =? 9)%nat || (n =? 10)%nat || (n =? 11)%nat
  || (n =? 12)%nat || (n =? 13)%nat.

Fixpoint skip_spaces (s : string) : string :=
  match s with
  | String c s' => if is_space c then skip_spaces s' else s
  | EmptyString => s
  end.

(** The longest prefix of decimal digits, read most significant first. *)
Fixpoint parse_digits (acc : option Z) (s : string) : option Z :=
  match s with
  | EmptyString => acc
  | String c s' =>
      match digit_of_ascii c with
      | Some d =>
          parse_digits (Some (10 * (match acc with Some a => a | None => 0 end) + d)) s'
      | None => acc
      end
  end.

(** [Number.parseInt(s, 10)]; [None] stands for [NaN]. *)
Definition parseInt (s : string) : option Z :=
  match skip_spaces s with
  | String "-" s' => option_map Z.opp (parse_digits None s')
  | String "+" s' => parse_digits None s'
  | s' => parse_digits None s'
  end.

(** [arr.slice(0, end)] for an integer [end]; a negative [end] counts from
    the end of the array. *)
Definition slice0 {A} (end_ : Z) (l : list A) : list A :=
  if end_ <? 0 then take (Z.to_nat (Z.max (Z.of_nat (length l) + end_) 0)) l
  else take (Z.to_nat end_) l.

(** IEEE 754 binary64, the numbers of JavaScript: 53 bits of precision,
    infinities at the exponent 1024, results rounded to the nearest double,
    ties to even. *)
Definition double : Type := SpecFloat.spec_float.

(** The double of an integer: the integer itself up to 2^53, otherwise the
    nearest double. *)
Definition toDouble (n : Z) : double := SpecFloat.binary_normalize 53 1024 n 0 false.

(** [x * y] and [x / y] on doubles. *)
Definition double_mul (x y : double) : double := SpecFloat.SFmul 53 1024 x y.

Definition double_div (x y : double) : double := SpecFloat.SFdiv 53 1024 x y.

(** [Math.min(Math.ceil(x), b)] for a double [x] and an integer [b].  The
    ceiling of the finite double [m * 2^e] is taken exactly; [+Infinity]
    gives [b].  [NaN] and [-Infinity] give no integer; they cannot come from
    products and quotients of integers in the safe range and stand as [0]. *)
Definition min_ceil (x : double) (b : Z) : Z :=
  match x with
  | SpecFloat.S754_zero _ => Z.min 0 b
  | SpecFloat.S754_finite sign m e =>
      let mantissa := if sign then Z.neg m else Z.pos m in
      let ceiling :=
        if 0 <=? e then mantissa * 2 ^ e
        else - ((- mantissa) / 2 ^ (- e)) in
      Z.min ceiling b
  | SpecFloat.S754_infinity false => b
  | SpecFloat.S754_infinity true => 0
  | SpecFloat.S754_nan => 0
  end.

(** [x.toString()] for a number that may be [NaN]. *)
Definition numToString (x : option Z) : string :=
  match x with
  | Some n => toString n
  | None => "NaN"
  end.

End JS.

(** ** Data model *)

Record Province := {
  id : string;
  name : string;
  zone_id : string;
  work_start_time : Z;
  work_end_time : Z;
  operators : Z
}.

Record BreakSchedule := {
  firstBreak : string;
  secondBreak : string;
  thirdBreak : string;
  fourthBreak : string
}.

Record OperatorShift := {
  shiftId : Z;
  startTime : string;
  endTime : string;
  duration : Z;
  breakSchedule : BreakSchedule
}.

(** The [{ start, end }] objects pushed on [breakTimes]. *)
Record BreakTime := { start : string; end_ : string }.

(** The [for (let i = 0; i < operatorCount; i++)] loop of both shift
    generators: [body i] is one iteration, [None] when it reaches [continue]
    and otherwise the shift it pushes; [fuel] is the number of iterations
    left. *)
Fixpoint shiftLoop (body : Z -> option OperatorShift) (fuel : nat) (i : Z)
    (shifts : list OperatorShift) : list OperatorShift :=
  match fuel with
  | O => shifts
  | S fuel' =>
      match body i with
      | None => shiftLoop body fuel' (i + 1) shifts
      | Some s => shiftLoop body fuel' (i + 1) (shifts ++ [s])
      end
  end.

(** ** [src/lib/distribution-utils.ts] *)

Module Utils.

Definition formatTime (hour minute : Z) : string :=
  JS.padStart 2 "0" (JS.toString hour) ++ ":" ++ JS.padStart 2 "0" (JS.toString minute).

Definition parseTime (timeStr : string) : option Z * option Z :=
  let parts := JS.split ":" timeStr in
  (from_option JS.parseInt None (parts !! 0%nat),
   from_option JS.parseInt None (parts !! 1%nat)).

Definition calculateOperatorsNeeded (callVolume responseRate : Z) : Z :=
  if responseRate <=? 0 then 0
  else JS.ceil_div callVolume responseRate.

(** One iteration of the inner [for (let j = 0; j < 4; j++)] loop: the
    element that it pushes at index [j] of [breakTimes]. *)
Definition breakTime (actualStartHour startMinute breakInterval j : Z) : BreakTime :=
  let breakStartMinutes :=
    JS.rem (actualStartHour * 60 + startMinute + (j + 1) * breakInterval) (24 * 60) in
  let breakStartHour := JS.floor_div breakStartMinutes 60 in
  let breakStartMinute := JS.rem breakStartMinutes 60 in
  let breakEndMinutes := JS.rem (breakStartMinutes + 10) (24 * 60) in
  let breakEndHour := JS.floor_div breakEndMinutes 60 in
  let breakEndMinute := JS.rem breakEndMinutes 60 in
  {| start := formatTime breakStartHour breakStartMinute;
     end_ := formatTime breakEndHour breakEndMinute |}.

(** [`${breakTimes[k].start}-${breakTimes[k].end}`] *)
Definition breakString (b : BreakTime) : string := start b ++ "-" ++ end_ b.

(** Body of the outer loop for operator index [i]. *)
Definition shiftBody (province : Province) (shiftDuration : Z) (i : Z)
    : option OperatorShift :=
  let startHour := work_start_time province in
  let startMinute := JS.rem (i * 15) 60 in
  let hourOffset := JS.floor_div (i * 15) 60 in
  let actualStartHour := startHour + hourOffset in
  if actualStartHour >=? work_end_time province then None
  else
    let startTime := formatTime actualStartHour startMinute in
    let endMinutes :=
      JS.rem (actualStartHour * 60 + startMinute + shiftDuration) (24 * 60) in
    let endHour := JS.floor_div endMinutes 60 in
    let endMinute := JS.rem endMinutes 60 in
    let endTime := formatTime endHour endMinute in
    let breakInterval := JS.floor_div shiftDuration 5 in
    let breakTimes := breakTime actualStartHour startMinute breakInterval in
    Some {| shiftId := i + 1;
            startTime := startTime;
            endTime := endTime;
            duration := shiftDuration;
            breakSchedule :=
              {| firstBreak := breakString (breakTimes 0);
                 secondBreak := breakString (breakTimes 1);
                 thirdBreak := breakString (breakTimes 2);
                 fourthBreak := breakString (breakTimes 3) |} |}.

Definition generateOperatorShifts (province : Province) (operatorCount : Z)
    (shiftDuration : Z) : list OperatorShift :=
  if operatorCount <=? 0 then []
  else shiftLoop (shiftBody province shiftDuration) (Z.to_nat operatorCount) 0 [].

(** [workingHours.some (hour => hour >= work_start_time && hour < work_end_time)] *)
Definition worksDuring (workingHours : list Z) (province : Province) : bool :=
  existsb (fun hour => (hour >=? work_start_time province) && (hour <? work_end_time province))
          workingHours.

(** [distribution[key]] where the code only reads keys it has written. *)
Definition get (distribution : gmap string Z) (key : string) : Z :=
  default 0 (distribution !! key).

(** [Object.values(distribution).reduce((sum, count) => sum + count, 0)] *)
Definition sumValues (distribution : gmap string Z) : Z :=
  map_fold (fun _ count sum => sum + count) 0 distribution.

(** [[...workingProvinces].sort((a, b) => distribution[b.id] - distribution[a.id])]:
    the sort is stable, so it is the insertion of every element, from the
    last to the first, in front of the first later element that the
    comparator does not order strictly before it. *)
Fixpoint sortInsert (distribution : gmap string Z) (a : Province) (l : list Province)
    : list Province :=
  match l with
  | [] => [a]
  | b :: l' =>
      if get distribution (id b) - get distribution (id a) <=? 0 then a :: b :: l'
      else b :: sortInsert distribution a l'
  end.

Definition sortProvinces (distribution : gmap string Z) (l : list Province) : list Province :=
  foldr (sortInsert distribution) [] l.

(** The [for (const province of sortedProvinces)] loop on the pair
    [(distribution, assignedOperators)]. *)
Fixpoint reduceLoop (totalOperatorsNeeded : Z) (sortedProvinces : list Province)
    (st : gmap string Z * Z) : gmap string Z * Z :=
  match sortedProvinces with
  | [] => st
  | province :: rest =>
      let '(distribution, assignedOperators) := st in
      if assignedOperators <=? totalOperatorsNeeded then st
      else
        let excess := assignedOperators - totalOperatorsNeeded in
        let reduction := Z.min excess (get distribution (id province) - 1) in
        if reduction >? 0 then
          reduceLoop totalOperatorsNeeded rest
            (<[id province := get distribution (id province) - reduction]> distribution,
             assignedOperators - reduction)
        else reduceLoop totalOperatorsNeeded rest st
  end.

Definition calculateOptimalDistribution (totalOperatorsNeeded : Z)
    (provinces : list Province) (workingHours : list Z) : gmap string Z :=
  let workingProvinces := List.filter (worksDuring workingHours) provinces in
  if (length workingProvinces =? 0)%nat then ∅
  else
    let totalAvailableOperators :=
      fold_left (fun sum province => sum + operators province) workingProvinces 0 in
    if totalOperatorsNeeded >=? totalAvailableOperators then
      fold_left (fun distribution province =>
                   <[id province := operators province]> distribution)
                workingProvinces ∅
    else
      let distribution :=
        fold_left (fun distribution province =>
                     let share :=
                       (inject_Z (operators province) / inject_Z totalAvailableOperators)%Q in
                     <[id province :=
                         Z.min (Qceiling (inject_Z totalOperatorsNeeded * share))
                               (operators province)]> distribution)
                  workingProvinces ∅ in
      let assignedOperators := sumValues distribution in
      if assignedOperators >? totalOperatorsNeeded then
        fst (reduceLoop totalOperatorsNeeded
               (sortProvinces distribution workingProvinces)
               (distribution, assignedOperators))
      else distribution.

(** [formatTime] on numbers that may be [NaN], as [addMinutesToTime] calls
    it on what [parseTime] returned. *)
Definition formatTimeNum (hour minute : option Z) : string :=
  JS.padStart 2 "0" (JS.numToString hour) ++ ":" ++ JS.padStart 2 "0" (JS.numToString minute).

(** [NaN] propagates through the sums: a missing minute makes the hour
    [NaN] too. *)
Definition addMinutesToTime (timeStr : string) (minutesToAdd : Z) : string :=
  let '(hour, minute) := parseTime timeStr in
  let newMinute := (fun m => m + minutesToAdd) <$> minute in
  let newHour :=
    match hour, newMinute with
    | Some h, Some m => Some (h + JS.floor_div m 60)
    | _, _ => None
    end in
  let newMinute := (fun m => JS.rem m 60) <$> newMinute in
  let newHour := (fun h => JS.rem h 24) <$> newHour in
  formatTimeNum newHour newMinute.

(** [checkBreakTime] of [isOperatorOnBreak]: [split] always returns a first
    element, and [===] is false on [NaN]. *)
Definition checkBreakTime (hour : Z) (breakTime : string) : bool :=
  match JS.split "-" breakTime with
  | start :: _ =>
      match fst (parseTime start) with
      | Some breakHour => breakHour =? hour
      | None => false
      end
  | [] => false
  end.

Definition isOperatorOnBreak (shift : OperatorShift) (hour : Z) : bool :=
  checkBreakTime hour (firstBreak (breakSchedule shift))
  || checkBreakTime hour (secondBreak (breakSchedule shift))
  || checkBreakTime hour (thirdBreak (breakSchedule shift))
  || checkBreakTime hour (fourthBreak (breakSchedule shift)).

End Utils.

(** ** The distribution page ([DistributionPage]) *)

Record Zone := {
  zone_ident : string;
  zone_name : string;
  provinces : list Province
}.

Record ProvinceDistribution := {
  provinceId : string;
  provinceName : string;
  pd_operators : Z;
  pd_breakTime : Z;
  pd_operatorShifts : list OperatorShift
}.

Record DistributionPeriod := {
  hour : Z;
  label : string;
  totalCallVolume : Z;
  period_provinces : list ProvinceDistribution
}.

Record CallVolumeItem := { cv_hour : Z; volume : Z }.

Record SystemParameters := {
  attendance_duration : Z;
  standard_break_time : Z;
  average_response_rate : Z
}.

(** The React state of the page that the calculation reads and writes. *)
Record PageState := {
  zones : list Zone;
  selectedZone : string;
  calculated : bool;
  distribution : list DistributionPeriod;
  operatorShifts : gmap string (list OperatorShift)
}.

Module Page.

Definition formatTime (hour minute : Z) : string :=
  JS.padStart 2 "0" (JS.toString hour) ++ ":" ++ JS.padStart 2 "0" (JS.toString minute).

Definition parseTime (timeStr : string) : option Z * option Z :=
  let parts := JS.split ":" timeStr in
  (from_option JS.parseInt None (parts !! 0%nat),
   from_option JS.parseInt None (parts !! 1%nat)).

(** One iteration of the inner loop: the break starts after [(j + 1) * 60]
    minutes of work. *)
Definition breakTime (actualStartHour startMinute j : Z) : BreakTime :=
  let breakStartMinutes :=
    JS.rem (actualStartHour * 60 + startMinute + (j + 1) * 60) (24 * 60) in
  let breakStartHour := JS.floor_div breakStartMinutes 60 in
  let breakStartMinute := JS.rem breakStartMinutes 60 in
  let breakEndMinutes := JS.rem (breakStartMinutes + 10) (24 * 60) in
  let breakEndHour := JS.floor_div breakEndMinutes 60 in
  let breakEndMinute := JS.rem breakEndMinutes 60 in
  {| start := formatTime breakStartHour breakStartMinute;
     end_ := formatTime breakEndHour breakEndMinute |}.

Definition shiftBody (province : Province) (i : Z) : option OperatorShift :=
  let fixedDuration := 420 in
  let startHour := work_start_time province in
  let startMinute := JS.rem (i * 15) 60 in
  let hourOffset := JS.floor_div (i * 15) 60 in
  let actualStartHour := startHour + hourOffset in
  if actualStartHour >=? work_end_time province then None
  else
    let startTime := formatTime actualStartHour startMinute in
    let endMinutes :=
      JS.rem (actualStartHour * 60 + startMinute + fixedDuration) (24 * 60) in
    let endHour := JS.floor_div endMinutes 60 in
    let endMinute := JS.rem endMinutes 60 in
    let endTime := formatTime endHour endMinute in
    let breakTimes := breakTime actualStartHour startMinute in
    Some {| shiftId := i + 1;
            startTime := startTime;
            endTime := endTime;
            duration := fixedDuration;
            breakSchedule :=
              {| firstBreak := Utils.breakString (breakTimes 0);
                 secondBreak := Utils.breakString (breakTimes 1);
                 thirdBreak := Utils.breakString (breakTimes 2);
                 fourthBreak := Utils.breakString (breakTimes 3) |} |}.

Definition generateOperatorShifts (province : Province) (operatorCount : Z)
    : list OperatorShift :=
  if operatorCount <=? 0 then []
  else shiftLoop (shiftBody province) (Z.to_nat operatorCount) 0 [].

(** Comparisons of numbers that may be [NaN] ([None]): false on [NaN]. *)
Definition num_lt (a b : option Z) : bool :=
  match a, b with Some x, Some y => x <? y | _, _ => false end.

Definition num_eq (a b : option Z) : bool :=
  match a, b with Some x, Some y => x =? y | _, _ => false end.

(** The predicate of the [activeShifts] filter, the same text in
    [handleCalculate] and in [handleOperatorChange]. *)
Definition activeDuringHour (hour : Z) (shift : OperatorShift) : bool :=
  let startTime := parseTime (startTime shift) in
  let endTime := parseTime (endTime shift) in
  (num_lt (fst startTime) (Some hour)
   || (num_eq (fst startTime) (Some hour) && num_eq (snd startTime) (Some 0)))
  && num_lt (Some hour) (fst endTime).

(** [x || fallback] on a number that may be missing: [0] is falsy. *)
Definition orDefault (x : option Z) (fallback : Z) : Z :=
  match x with
  | Some v => if v =? 0 then fallback else v
  | None => fallback
  end.

Definition workingHours : list Z := map (fun i => Z.of_nat i + 7) (seq 0 15).

(** The entry of one province in one hour ([zone.provinces.map] callback). *)
Definition provinceDistribution (zoneProvinces : list Province)
    (allOperatorShifts : gmap string (list OperatorShift))
    (averageResponseRate standardBreakTime callVolume hour : Z)
    (province : Province) : ProvinceDistribution :=
  let isWorking :=
    (hour >=? work_start_time province) && (hour <? work_end_time province) in
  let totalProvinceOperators :=
    fold_left (fun sum p => sum + operators p) zoneProvinces 0 in
  let provinceShare :=
    if totalProvinceOperators >? 0
    then JS.double_div (JS.toDouble (operators province)) (JS.toDouble totalProvinceOperators)
    else JS.toDouble 0 in
  let totalOperatorsNeeded := JS.ceil_div callVolume averageResponseRate in
  let provinceOperators :=
    if isWorking
    then JS.min_ceil (JS.double_mul (JS.toDouble totalOperatorsNeeded) provinceShare)
                     (operators province)
    else 0 in
  let operatorsOnBreak := JS.floor_div provinceOperators 6 in
  let breakTime := operatorsOnBreak * standardBreakTime in
  let shifts := default [] (allOperatorShifts !! id province) in
  let activeShifts :=
    JS.slice0 provinceOperators (List.filter (activeDuringHour hour) shifts) in
  {| provinceId := id province;
     provinceName := name province;
     pd_operators := Z.of_nat (length activeShifts);
     pd_breakTime := breakTime;
     pd_operatorShifts := activeShifts |}.

(** The synchronous part of [handleCalculate], from the rows fetched for the
    zone to the two state updates. *)
Definition calculate (zone : Zone) (callVolumeData : list CallVolumeItem)
    (parameters : option SystemParameters)
    : gmap string (list OperatorShift) * list DistributionPeriod :=
  let averageResponseRate := orDefault (average_response_rate <$> parameters) 80 in
  let standardBreakTime := orDefault (standard_break_time <$> parameters) 10 in
  let allOperatorShifts :=
    fold_left (fun acc province =>
                 <[id province := generateOperatorShifts province (operators province)]> acc)
              (provinces zone) ∅ in
  let newDistribution :=
    map (fun hour =>
           let callVolumeItem := List.find (fun item => cv_hour item =? hour) callVolumeData in
           let callVolume := orDefault (volume <$> callVolumeItem) 0 in
           {| hour := hour;
              label := JS.toString hour ++ ":00 - " ++ JS.toString (hour + 1) ++ ":00";
              totalCallVolume := callVolume;
              period_provinces :=
                map (provinceDistribution (provinces zone) allOperatorShifts
                       averageResponseRate standardBreakTime callVolume hour)
                    (provinces zone) |})
        workingHours in
  (allOperatorShifts, newDistribution).

Definition handleCalculate (st : PageState) (callVolumeData : list CallVolumeItem)
    (parameters : option SystemParameters) : PageState :=
  if String.eqb (selectedZone st) "" then st
  else
    match List.find (fun z => String.eqb (zone_ident z) (selectedZone st)) (zones st) with
    | None => st
    | Some zone =>
        let '(allOperatorShifts, newDistribution) :=
          calculate zone callVolumeData parameters in
        {| zones := zones st;
           selectedZone := selectedZone st;
           calculated := true;
           distribution := newDistribution;
           operatorShifts := allOperatorShifts |}
    end.

(** [handleOperatorChange]; [None] when an index is out of range and the
    property access on [undefined] throws. *)
Definition handleOperatorChange (st : PageState) (hourIndex provinceIndex : nat)
    (change : Z) : option PageState :=
  period ← distribution st !! hourIndex;
  entry ← period_provinces period !! provinceIndex;
  let currentOperators := pd_operators entry in
  let zone := List.find (fun z => String.eqb (zone_ident z) (selectedZone st)) (zones st) in
  maxOperators ←
    match zone with
    | None => Some 0
    | Some z => (fun p => orDefault (Some (operators p)) 0) <$> provinces z !! provinceIndex
    end;
  let newOperators := Z.max 0 (Z.min (currentOperators + change) maxOperators) in
  let standardBreakTime := 10 in
  let operatorsOnBreak := JS.floor_div newOperators 6 in
  let allShifts := default [] (operatorShifts st !! provinceId entry) in
  let activeShifts :=
    JS.slice0 newOperators (List.filter (activeDuringHour (hour period)) allShifts) in
  let entry' :=
    {| provinceId := provinceId entry;
       provinceName := provinceName entry;
       pd_operators := newOperators;
       pd_breakTime := operatorsOnBreak * standardBreakTime;
       pd_operatorShifts := activeShifts |} in
  let period' :=
    {| hour := hour period;
       label := label period;
       totalCallVolume := totalCallVolume period;
       period_provinces := <[provinceIndex := entry']> (period_provinces period) |} in
  Some {| zones := zones st;
          selectedZone := selectedZone st;
          calculated := calculated st;
          distribution := <[hourIndex := period']> (distribution st);
          operatorShifts := operatorShifts st |}.

(** The page's own [addMinutesToTime]: the hour is not reduced modulo 24. *)
Definition addMinutesToTime (timeStr : string) (minutesToAdd : Z) : string :=
  let '(hour, minute) := parseTime timeStr in
  let newMinute := (fun m => m + minutesToAdd) <$> minute in
  let newHour :=
    match hour, newMinute with
    | Some h, Some m => Some (h + JS.floor_div m 60)
    | _, _ => None
    end in
  let newMinute := (fun m => JS.rem m 60) <$> newMinute in
  Utils.formatTimeNum newHour newMinute.

Definition checkBreakTime (hour : Z) (breakTime : string) : bool :=
  match JS.split "-" breakTime with
  | start :: _ => num_eq (fst (parseTime start)) (Some hour)
  | [] => false
  end.

Definition isOperatorOnBreak (shift : OperatorShift) (hour : Z) : bool :=
  checkBreakTime hour (firstBreak (breakSchedule shift))
  || checkBreakTime hour (secondBreak (breakSchedule shift))
  || checkBreakTime hour (thirdBreak (breakSchedule shift))
  || checkBreakTime hour (fourthBreak (breakSchedule shift)).

(** The work schedule tab: the shifts of an entry that are on break during
    the hour of its period, and the "Active Operators" cell. *)
Definition operatorsOnBreak (period : DistributionPeriod)
    (provinceData : ProvinceDistribution) : Z :=
  Z.of_nat (length (List.filter (fun shift => isOperatorOnBreak shift (hour period))
                                (pd_operatorShifts provinceData))).

Definition activeOperators (period : DistributionPeriod)
    (provinceData : ProvinceDistribution) : Z :=
  pd_operators provinceData - operatorsOnBreak period provinceData.

(** The state updates of the page besides the two handlers. *)
Definition initialState : PageState :=
  {| zones := []; selectedZone := ""; calculated := false;
     distribution := []; operatorShifts := ∅ |}.

Definition setZones (st : PageState) (zs : list Zone) : PageState :=
  {| zones := zs; selectedZone := selectedZone st; calculated := calculated st;
     distribution := distribution st; operatorShifts := operatorShifts st |}.

Definition setSelectedZone (st : PageState) (z : string) : PageState :=
  {| zones := zones st; selectedZone := z; calculated := calculated st;
     distribution := distribution st; operatorShifts := operatorShifts st |}.

(** The states that the page can be in. *)
Inductive reachable : PageState -> Prop :=
| reach_initial : reachable initialState
| reach_zones st zs : reachable st -> reachable (setZones st zs)
| reach_select st z : reachable st -> reachable (setSelectedZone st z)
| reach_calculate st callVolumeData parameters :
    reachable st -> reachable (handleCalculate st callVolumeData parameters)
| reach_change st hourIndex provinceIndex change st' :
    reachable st ->
    handleOperatorChange st hourIndex provinceIndex change = Some st' ->
    reachable st'.

End Page.

(** ** Inputs of the worked examples *)

(** A province with the default working window 7 to 22. *)
Definition province_7_22 (ident : string) (n : Z) : Province :=
  {| id := ident; name := ident; zone_id := "z1"; work_start_time := 7;
     work_end_time := 22; operators := n |}.

Definition three_single_operator_provinces : list Province :=
  [province_7_22 "a" 1; province_7_22 "b" 1; province_7_22 "c" 1].

Definition three_provinces_of_five : list Province :=
  [province_7_22 "a" 5; province_7_22 "b" 5; province_7_22 "c" 5].

(** The fourth operator of a province that opens at 7: the shift from 07:45
    to 14:45 with the page's hourly breaks. *)
Definition shift_0745 : OperatorShift :=
  {| shiftId := 4;
     startTime := "07:45";
     endTime := "14:45";
     duration := 420;
     breakSchedule :=
       {| firstBreak := "08:45-08:55";
          secondBreak := "09:45-09:55";
          thirdBreak := "10:45-10:55";
          fourthBreak := "11:45-11:55" |} |}.

(** A zone of one province of twelve operators, with 960 calls at hour 7. *)
Definition zone_of_twelve : Zone :=
  {| zone_ident := "z1"; zone_name := "Z1"; provinces := [province_7_22 "a" 12] |}.

Definition calls_at_seven : list CallVolumeItem := [{| cv_hour := 7; volume := 960 |}].

(** The page after a calculation for [zone_of_twelve]. *)
Definition page_of_twelve : PageState :=
  Page.handleCalculate
    {| zones := [zone_of_twelve]; selectedZone := "z1"; calculated := false;
       distribution := []; operatorShifts := ∅ |}
    calls_at_seven None.

(** What the calculation for [zone_of_twelve] shows at hour 7: one active
    shift, the one that starts at 07:00. *)
Definition entry_at_seven : ProvinceDistribution :=
  {| provinceId := "a";
     provinceName := "a";
     pd_operators := 1;
     pd_breakTime := 20;
     pd_operatorShifts :=
       [ {| shiftId := 1; startTime := "07:00"; endTime := "14:00"; duration := 420;
            breakSchedule :=
              {| firstBreak := "08:00-08:10"; secondBreak := "09:00-09:10";
                 thirdBreak := "10:00-10:10"; fourthBreak := "11:00-11:10" |} |} ] |}.

Definition period_at_seven : DistributionPeriod :=
  {| hour := 7;
     label := "7:00 - 8:00";
     totalCallVolume := 960;
     period_provinces := [entry_at_seven] |}.

(** The second operator of the library's worked example. *)
Definition shift_0715 : OperatorShift :=
  {| shiftId := 2;
     startTime := "07:15";
     endTime := "14:15";
     duration := 420;
     breakSchedule :=
       {| firstBreak := "08:39-08:49";
          secondBreak := "10:03-10:13";
          thirdBreak := "11:27-11:37";
          fourthBreak := "12:51-13:01" |} |}.

(** What the page keeps true of an entry of its table: the count is not
    negative, the displayed shifts are no more than the count and come from
    the stored roster of the entry's province, and the "Active Operators" cell
    is not negative. *)
Definition consistentEntry (st : PageState) (period : DistributionPeriod)
    (entry : ProvinceDistribution) : Prop :=
  0 <= pd_operators entry
  /\ Z.of_nat (length (pd_operatorShifts entry)) <= pd_operators entry
  /\ pd_operatorShifts entry `sublist_of` default [] (operatorShifts st !! provinceId entry)
  /\ 0 <= Page.activeOperators period entry.

(** A province that opens at 8, its zone, and what the calculation shows for
    it at hour 7. *)
Definition late_province : Province :=
  {| id := "a"; name := "a"; zone_id := "z1"; work_start_time := 8;
     work_end_time := 22; operators := 12 |}.

Definition zone_late : Zone :=
  {| zone_ident := "z1"; zone_name := "Z1"; provinces := [late_province] |}.

Definition entry_late_at_seven : ProvinceDistribution :=
  {| provinceId := "a"; provinceName := "a"; pd_operators := 0; pd_breakTime := 0;
     pd_operatorShifts := [] |}.

Definition period_late_at_seven : DistributionPeriod :=
  {| hour := 7; label := "7:00 - 8:00"; totalCallVolume := 960;
     period_provinces := [entry_late_at_seven] |}.

(** A zone of two provinces of 46 and 36 operators, with 3280 calls at hour
    13: the share of the first province is the double 46/82, and 41 times it
    is the double just above 23. *)
Definition zone_46_36 : Zone :=
  {| zone_ident := "z2"; zone_name := "Z2";
     provinces := [province_7_22 "a" 46; province_7_22 "b" 36] |}.

Definition calls_at_thirteen : list CallVolumeItem := [{| cv_hour := 13; volume := 3280 |}].

(** The summed head count of the provinces that work during [workingHours]:
    the [totalAvailableOperators] of [calculateOptimalDistribution]. *)
Definition capacity (provinces : list Province) (workingHours : list Z) : Z :=
  fold_left (fun sum province => sum + operators province)
            (List.filter (Utils.worksDuring workingHours) provinces) 0.

(** The fields of a shift other than its break schedule. *)
Definition sameTimes (a b : OperatorShift) : Prop :=
  shiftId a = shiftId b /\ startTime a = startTime b /\
  endTime a = endTime b /\ duration a = duration b.

(** * Rounding of integer quotients *)

Section Rounding.

Lemma floor_div_Zdiv (a b : Z) : 0 < b -> JS.floor_div a b = a / b.
Proof.
  intros Hb. destruct b as [|p|p]; try lia.
  unfold JS.floor_div, Qdiv, Qinv, Qmult, inject_Z, Qfloor. simpl.
  now rewrite Z.mul_1_r.
Qed.

Lemma ceil_div_Zdiv (a b : Z) : b <> 0 -> JS.ceil_div a b = - ((- a) / b).
Proof.
  intros Hb. destruct b as [|p|p]; try congruence;
    unfold JS.ceil_div, Qceiling, Qdiv, Qinv, Qmult, Qopp, inject_Z, Qfloor; simpl.
  - now rewrite Z.mul_1_r.
  - rewrite <- (Z.div_opp_opp (- a) (Z.neg p)) by lia.
    rewrite Z.opp_involutive. simpl. f_equal. f_equal. lia.
Qed.

Lemma ceil_share_Zdiv (n a b : Z) :
  0 < b ->
  Qceiling (inject_Z n * (inject_Z a / inject_Z b)) = - ((- (n * a)) / b).
Proof.
  intros Hb. destruct b as [|p|p]; try lia.
  unfold Qceiling, Qdiv, Qinv, Qmult, Qopp, inject_Z, Qfloor. simpl.
  now rewrite Z.mul_1_r.
Qed.

(** [- ((- a) / b)] is the least integer [n] with [a <= b * n]. *)
Lemma ceil_bounds (a b : Z) :
  0 < b -> b * (- ((- a) / b) - 1) < a <= b * (- ((- a) / b)).
Proof.
  intros Hb. pose proof (Z.div_mod (- a) b ltac:(lia)) as Hdm.
  pose proof (Z.mod_pos_bound (- a) b Hb). nia.
Qed.

End Rounding.

(** * The distribution mapping *)

Section Distribution.

Implicit Types (d : gmap string Z) (l : list Province) (p : Province).

(** The [forEach] loops that fill [distribution] write [f province] under
    [province.id], a later province overwriting an earlier one of the same id. *)
Lemma assign_lookup_other (f : Province -> Z) l d (k : string) :
  k ∉ map id l ->
  fold_left (fun distribution province => <[id province := f province]> distribution) l d !! k
  = d !! k.
Proof.
  revert d. induction l as [|q l IH]; intros d Hk; simpl; [reflexivity|].
  rewrite IH.
  - apply lookup_insert_ne. intros Heq. apply Hk. simpl. rewrite Heq. left.
  - intros Hin. apply Hk. simpl. now right.
Qed.

Lemma assign_lookup_unique (f : Province -> Z) l d p :
  NoDup (map id l) -> p ∈ l ->
  fold_left (fun distribution province => <[id province := f province]> distribution) l d
    !! id p = Some (f p).
Proof.
  revert d. induction l as [|q l IH]; intros d Hnd Hin; simpl.
  - inversion Hin.
  - simpl in Hnd. apply NoDup_cons in Hnd as [Hq Hnd].
    apply elem_of_cons in Hin as [->|Hin].
    + rewrite assign_lookup_other by exact Hq. apply lookup_insert_eq.
    + now apply IH.
Qed.

Lemma assign_lookup_origin (f : Province -> Z) l d (k : string) (c : Z) :
  fold_left (fun distribution province => <[id province := f province]> distribution) l d
    !! k = Some c ->
  d !! k = Some c \/ exists p, p ∈ l /\ id p = k.
Proof.
  revert d. induction l as [|q l IH]; intros d H; simpl in H; [now left|].
  apply IH in H as [H|(p & Hp & Hk)].
  - destruct (decide (id q = k)) as [Heq|Hne].
    + right. exists q. split; [left|exact Heq].
    + left. now rewrite lookup_insert_ne in H.
  - right. exists p. split; [now right|exact Hk].
Qed.

Lemma sumValues_insert d (k : string) (g v : Z) :
  d !! k = Some g -> Utils.sumValues (<[k := v]> d) = Utils.sumValues d - g + v.
Proof.
  intros Hk. unfold Utils.sumValues.
  rewrite <- insert_delete_eq.
  rewrite map_fold_insert_L; [|intros; lia|apply lookup_delete_eq].
  rewrite (map_fold_delete_L _ _ k g d); [lia|intros; lia|exact Hk].
Qed.

Lemma reduceLoop_done (total : Z) l d (a : Z) :
  a <= total -> Utils.reduceLoop total l (d, a) = (d, a).
Proof.
  intros Ha. destruct l; simpl; [reflexivity|].
  destruct (Z.leb_spec a total); [reflexivity|lia].
Qed.

Lemma get_insert_eq d (k : string) (v : Z) : Utils.get (<[k := v]> d) k = v.
Proof. unfold Utils.get. now rewrite lookup_insert_eq. Qed.

Lemma get_insert_ne d (k k' : string) (v : Z) :
  k <> k' -> Utils.get (<[k := v]> d) k' = Utils.get d k'.
Proof. intros. unfold Utils.get. now rewrite lookup_insert_ne. Qed.

(** What one pass of the reduction loop establishes: the running total stays
    the sum of the mapping, no key is added or removed, no count grows, and
    the pass ends either with the demand met or with every visited province
    down to at most one operator. *)
Lemma reduceLoop_inv (total : Z) l : forall d (a : Z),
  a = Utils.sumValues d ->
  let r := Utils.reduceLoop total l (d, a) in
  snd r = Utils.sumValues (fst r)
  /\ (forall k : string, is_Some (fst r !! k) <-> is_Some (d !! k))
  /\ (forall k : string, Utils.get (fst r) k <= Utils.get d k)
  /\ (snd r <= total \/ forall p, p ∈ l -> Utils.get (fst r) (id p) <= 1).
Proof.
  induction l as [|p l IH]; intros d a Ha; simpl.
  - repeat split; auto; try lia. right. intros p Hp. inversion Hp.
  - destruct (Z.leb_spec a total) as [Hle|Hgt]; simpl.
    { repeat split; auto; try lia. }
    set (g := Utils.get d (id p)).
    destruct (Z.gtb_spec (Z.min (a - total) (g - 1)) 0) as [Hred|Hred].
    + assert (Hg : d !! id p = Some g).
      { unfold g, Utils.get in *. destruct (d !! id p); simpl in *; [reflexivity|lia]. }
      set (red := Z.min (a - total) (g - 1)) in *.
      specialize (IH (<[id p := g - red]> d) (a - red)).
      destruct IH as (Hsum & Hdom & Hmono & Hend).
      { rewrite (sumValues_insert d (id p) g) by exact Hg. lia. }
      assert (Hmono' : forall k : string,
                 Utils.get (fst (Utils.reduceLoop total l (<[id p := g - red]> d, a - red))) k
                 <= Utils.get d k).
      { intros k. etransitivity; [apply Hmono|].
        destruct (decide (id p = k)) as [<-|Hne].
        - rewrite get_insert_eq. fold g. lia.
        - rewrite get_insert_ne by exact Hne. lia. }
      repeat split.
      * exact Hsum.
      * intros Hk. apply Hdom in Hk.
        destruct (decide (id p = k)) as [<-|Hne]; [now exists g|].
        now rewrite lookup_insert_ne in Hk.
      * intros Hk. apply Hdom.
        destruct (decide (id p = k)) as [<-|Hne];
          [rewrite lookup_insert_eq; eauto | now rewrite lookup_insert_ne].
      * exact Hmono'.
      * destruct (Z.le_gt_cases (a - total) (g - 1)) as [Hex|Hex].
        -- left. rewrite reduceLoop_done by lia. simpl. lia.
        -- destruct Hend as [Hend|Hend]; [now left|right].
           intros q Hq. apply elem_of_cons in Hq as [->|Hq]; [|now apply Hend].
           etransitivity; [apply Hmono|]. rewrite get_insert_eq. lia.
    + specialize (IH d a Ha). destruct IH as (Hsum & Hdom & Hmono & Hend).
      repeat split; try apply Hdom; auto.
      destruct Hend as [Hend|Hend]; [now left|right].
      intros q Hq. apply elem_of_cons in Hq as [->|Hq]; [|now apply Hend].
      etransitivity; [apply Hmono|]. fold g. lia.
Qed.

Lemma sortInsert_elem d p q l : q ∈ Utils.sortInsert d p l <-> q = p \/ q ∈ l.
Proof.
  induction l as [|b l IH]; simpl.
  - rewrite list_elem_of_singleton. rewrite elem_of_nil. tauto.
  - destruct (_ <=? 0).
    + rewrite !elem_of_cons. tauto.
    + rewrite !elem_of_cons, IH. tauto.
Qed.

Lemma sortProvinces_elem d l q : q ∈ Utils.sortProvinces d l <-> q ∈ l.
Proof.
  unfold Utils.sortProvinces. induction l as [|p l IH]; simpl; [reflexivity|].
  rewrite sortInsert_elem, elem_of_cons, IH. tauto.
Qed.

End Distribution.

(** * Claims about [calculateOperatorsNeeded] and [calculateOptimalDistribution] *)

(** C5. For a positive response rate [calculateOperatorsNeeded] is the ceiling
    of [callVolume / responseRate], that is the integer [n] with
    [responseRate * (n - 1) < callVolume <= responseRate * n]; for a response
    rate that is zero or negative it is [0]. *)
Theorem calculateOperatorsNeeded_ceiling (callVolume responseRate : Z) :
  (0 < responseRate ->
   let n := Utils.calculateOperatorsNeeded callVolume responseRate in
   responseRate * (n - 1) < callVolume <= responseRate * n)
  /\ (responseRate <= 0 -> Utils.calculateOperatorsNeeded callVolume responseRate = 0).
Proof.
  unfold Utils.calculateOperatorsNeeded. split; intros Hr.
  - destruct (Z.leb_spec responseRate 0); [lia|]. simpl.
    rewrite ceil_div_Zdiv by lia. now apply ceil_bounds.
  - destruct (Z.leb_spec responseRate 0); [reflexivity|lia].
Qed.

Lemma calculateOperatorsNeeded_ceiling_witness :
  (80 * (Utils.calculateOperatorsNeeded 161 80 - 1) < 161
   <= 80 * Utils.calculateOperatorsNeeded 161 80)
  /\ Utils.calculateOperatorsNeeded 161 0 = 0.
Proof.
  split.
  - apply (calculateOperatorsNeeded_ceiling 161 80). lia.
  - apply (calculateOperatorsNeeded_ceiling 161 0). lia.
Defined.

(** C6. When the demand is at least the capacity of the working provinces,
    every working province is mapped to its full [operators] value (province
    ids being distinct, as identifiers are). *)
Theorem full_headcount_when_demand_reaches_capacity
    (totalOperatorsNeeded : Z) (provinces : list Province) (workingHours : list Z)
    (p : Province) :
  NoDup (map id (List.filter (Utils.worksDuring workingHours) provinces)) ->
  capacity provinces workingHours <= totalOperatorsNeeded ->
  p ∈ provinces ->
  Utils.worksDuring workingHours p = true ->
  Utils.calculateOptimalDistribution totalOperatorsNeeded provinces workingHours !! id p
  = Some (operators p).
Proof.
  intros Hnd Hcap Hp Hw. unfold Utils.calculateOptimalDistribution, capacity in *.
  assert (Hin : p ∈ List.filter (Utils.worksDuring workingHours) provinces).
  { apply list_elem_of_In, filter_In. split; [now apply list_elem_of_In|exact Hw]. }
  destruct (List.filter (Utils.worksDuring workingHours) provinces) as [|q l] eqn:Hl.
  { inversion Hin. }
  cbn [length Nat.eqb].
  destruct (Z.geb_spec totalOperatorsNeeded
              (fold_left (fun sum province => sum + operators province) (q :: l) 0)); [|lia].
  now apply (assign_lookup_unique operators).
Qed.

Lemma full_headcount_when_demand_reaches_capacity_witness :
  Utils.calculateOptimalDistribution 20 three_provinces_of_five [7; 8] !! "b" = Some 5.
Proof.
  apply (full_headcount_when_demand_reaches_capacity 20 three_provinces_of_five [7; 8]
           (province_7_22 "b" 5)).
  - apply (bool_decide_unpack _). vm_compute. exact I.
  - vm_compute. discriminate.
  - apply list_elem_of_In. right. left. reflexivity.
  - reflexivity.
Defined.

(** C2 as stated fails: with a demand of one operator and three working
    provinces of one operator each, every province keeps its operator and
    three are assigned. *)
Lemma reconciliation_overshoots_demand :
  0 <= 1
  /\ 1 < capacity three_single_operator_provinces [7]
  /\ ~ Utils.sumValues
         (Utils.calculateOptimalDistribution 1 three_single_operator_provinces [7]) <= 1.
Proof. vm_compute. repeat split; congruence. Qed.

(** C2, amended. When the demand is below the capacity, the assigned counts
    sum to at most the demand unless every province is left with at most one
    operator: the reduction never takes a province below one. *)
Theorem reconciliation_meets_demand_or_leaves_one_each
    (totalOperatorsNeeded : Z) (provinces : list Province) (workingHours : list Z) :
  0 <= totalOperatorsNeeded ->
  totalOperatorsNeeded < capacity provinces workingHours ->
  let distribution :=
    Utils.calculateOptimalDistribution totalOperatorsNeeded provinces workingHours in
  Utils.sumValues distribution <= totalOperatorsNeeded
  \/ (forall (k : string) (count : Z), distribution !! k = Some count -> count <= 1).
Proof.
  intros Hneed Hcap. unfold Utils.calculateOptimalDistribution, capacity in *.
  set (working := List.filter (Utils.worksDuring workingHours) provinces) in *.
  destruct working as [|q l] eqn:Hl; [simpl in Hcap; lia|].
  cbn [length Nat.eqb]. rewrite <- Hl in *. clear Hl.
  set (cap := fold_left (fun sum province => sum + operators province) working 0) in *.
  destruct (Z.geb_spec totalOperatorsNeeded cap); [lia|].
  cbv zeta.
  set (f := fun province : Province =>
              Z.min (Qceiling (inject_Z totalOperatorsNeeded
                               * (inject_Z (operators province) / inject_Z cap)))
                    (operators province)).
  set (d0 := fold_left (fun (distribution : gmap string Z) province =>
                          <[id province := f province]> distribution)
                       working (∅ : gmap string Z)).
  change (fold_left _ working ∅) with d0.
  destruct (Z.gtb_spec (Utils.sumValues d0) totalOperatorsNeeded) as [Hover|Hok];
    [|left; lia].
  destruct (reduceLoop_inv totalOperatorsNeeded (Utils.sortProvinces d0 working)
              d0 (Utils.sumValues d0) eq_refl) as (Hsum & Hdom & _ & Hend).
  destruct Hend as [Hend|Hend]; [left; lia|right].
  intros k count Hk.
  assert (Hk0 : is_Some (d0 !! k)) by (apply Hdom; eauto).
  destruct Hk0 as [c0 Hc0].
  apply assign_lookup_origin in Hc0 as [Hc0|(p & Hp & <-)].
  { rewrite lookup_empty in Hc0. discriminate. }
  specialize (Hend p ltac:(now apply sortProvinces_elem)).
  unfold Utils.get in Hend. rewrite Hk in Hend. exact Hend.
Qed.

Lemma reconciliation_meets_demand_or_leaves_one_each_witness :
  let distribution := Utils.calculateOptimalDistribution 4 three_provinces_of_five [7] in
  Utils.sumValues distribution <= 4
  \/ (forall (k : string) (count : Z), distribution !! k = Some count -> count <= 1).
Proof.
  apply (reconciliation_meets_demand_or_leaves_one_each 4 three_provinces_of_five [7]).
  - lia.
  - vm_compute. reflexivity.
Defined.

(** * [HH:MM] strings: [parseTime] reads back what [formatTime] prints *)

Section Strings.

Import DecimalPos.Unsigned.

Lemma append_nil_l (t : string) : "" ++ t = t.
Proof. reflexivity. Qed.

Lemma append_cons (c : ascii) (s t : string) : String c s ++ t = String c (s ++ t).
Proof. reflexivity. Qed.

Lemma append_empty_r (s : string) : s ++ "" = s.
Proof. induction s; rewrite ?append_nil_l, ?append_cons; congruence. Qed.

Lemma append_snoc (s t : string) (c : ascii) :
  (s ++ String c "") ++ t = s ++ String c t.
Proof. induction s; rewrite ?append_nil_l, ?append_cons, ?append_nil_l; congruence. Qed.

(** ** Digits *)

Lemma parse_digits_uint (d : uint) : forall d' : uint,
  JS.parse_digits (Some (Z.of_N (of_lu d'))) (NilEmpty.string_of_uint d)
  = Some (Z.of_N (of_lu (revapp d d'))).
Proof.
  induction d; intros d'; cbn [NilEmpty.string_of_uint revapp];
    [reflexivity|..]; rewrite <- IHd;
    cbn [JS.parse_digits]; cbv [JS.digit_of_ascii]; simpl nat_of_ascii;
    simpl andb; cbv iota; f_equal; f_equal; cbn [of_lu];
    match goal with
    | |- context [Z.of_nat (nat_of_ascii ?c)] =>
        let v := eval vm_compute in (Z.of_nat (nat_of_ascii c)) in
        change (Z.of_nat (nat_of_ascii c)) with v
    end; lia.
Qed.

Lemma parse_digits_to_uint (p : positive) :
  JS.parse_digits (Some 0) (NilEmpty.string_of_uint (Pos.to_uint p)) = Some (Z.pos p).
Proof.
  change (Some 0) with (Some (Z.of_N (of_lu Nil))).
  rewrite (parse_digits_uint (Pos.to_uint p) Nil).
  change (revapp (Pos.to_uint p) Nil) with (Decimal.rev (Pos.to_uint p)).
  now rewrite <- of_uint_alt, of_to.
Qed.

Lemma parseInt_padded_digits (d : uint) :
  d <> Nil ->
  JS.parseInt (JS.padStart 2 "0" (NilEmpty.string_of_uint d))
  = JS.parse_digits (Some 0) (NilEmpty.string_of_uint d).
Proof.
  intros Hd. destruct d as [|d|d|d|d|d|d|d|d|d|d]; try congruence;
    destruct d; reflexivity.
Qed.

Lemma parseInt_padded_negative (d : uint) :
  d <> Nil ->
  JS.parseInt (JS.padStart 2 "0" (String "-" (NilEmpty.string_of_uint d)))
  = option_map Z.opp (JS.parse_digits (Some 0) (NilEmpty.string_of_uint d)).
Proof. intros Hd. destruct d; try congruence; reflexivity. Qed.

(** [parseInt] inverts the two-digit printing of [formatTime], for every
    integer (also beyond two digits and below zero). *)
Lemma parseInt_padStart_toString (n : Z) :
  JS.parseInt (JS.padStart 2 "0" (JS.toString n)) = Some n.
Proof.
  destruct n as [|p|p]; unfold JS.toString; cbn [Z.to_int NilEmpty.string_of_int].
  - reflexivity.
  - rewrite parseInt_padded_digits by apply to_uint_nonnil.
    apply parse_digits_to_uint.
  - rewrite parseInt_padded_negative by apply to_uint_nonnil.
    now rewrite parse_digits_to_uint.
Qed.

(** ** Splitting at the colon *)

Lemma split_aux_free (sep : ascii) (a : string) : forall cur rest : string,
  Forall (fun c => c <> sep) (list_ascii_of_string a) ->
  JS.split_aux sep cur (a ++ rest) = JS.split_aux sep (cur ++ a) rest.
Proof.
  induction a as [|c a IH]; intros cur rest Hfree;
    rewrite ?append_nil_l, ?append_cons; simpl.
  - now rewrite append_empty_r.
  - simpl in Hfree. apply Forall_cons in Hfree as [Hc Hfree].
    destruct (Ascii.eqb_spec c sep); [contradiction|].
    rewrite IH by exact Hfree. now rewrite append_snoc.
Qed.

Lemma split_two (sep : ascii) (a b : string) :
  Forall (fun c => c <> sep) (list_ascii_of_string a) ->
  Forall (fun c => c <> sep) (list_ascii_of_string b) ->
  JS.split sep (a ++ String sep b) = [a; b].
Proof.
  intros Ha Hb. unfold JS.split. rewrite split_aux_free by exact Ha.
  rewrite append_nil_l. simpl. rewrite Ascii.eqb_refl. f_equal.
  rewrite <- (append_empty_r b) at 1. rewrite split_aux_free by exact Hb.
  reflexivity.
Qed.

Lemma uint_colon_free (d : uint) :
  Forall (fun c => c <> ":"%char) (list_ascii_of_string (NilEmpty.string_of_uint d)).
Proof. induction d; simpl; constructor; auto; discriminate. Qed.

Lemma repeat_zero_colon_free (n : nat) (s : string) :
  Forall (fun c => c <> ":"%char) (list_ascii_of_string s) ->
  Forall (fun c => c <> ":"%char) (list_ascii_of_string (JS.repeat_char "0" n ++ s)).
Proof.
  intros Hs. induction n; simpl; rewrite ?append_nil_l, ?append_cons; [exact Hs|].
  simpl. constructor; [discriminate|exact IHn].
Qed.

Lemma padded_colon_free (n : Z) :
  Forall (fun c => c <> ":"%char)
         (list_ascii_of_string (JS.padStart 2 "0" (JS.toString n))).
Proof.
  unfold JS.padStart. apply repeat_zero_colon_free.
  destruct n; unfold JS.toString; cbn [Z.to_int NilEmpty.string_of_int].
  - simpl. repeat constructor. discriminate.
  - apply uint_colon_free.
  - simpl. constructor; [discriminate|apply uint_colon_free].
Qed.

Lemma parseTime_formatTime (hour minute : Z) :
  Utils.parseTime (Utils.formatTime hour minute) = (Some hour, Some minute).
Proof.
  unfold Utils.parseTime, Utils.formatTime.
  change (?a ++ ":" ++ ?b) with (a ++ String ":" b).
  rewrite split_two by apply padded_colon_free.
  simpl. now rewrite !parseInt_padStart_toString.
Qed.

Lemma page_parseTime_formatTime (hour minute : Z) :
  Page.parseTime (Page.formatTime hour minute) = (Some hour, Some minute).
Proof. exact (parseTime_formatTime hour minute). Qed.

End Strings.

(** * The shift loop *)

Section ShiftLoop.

Variable body : Z -> option OperatorShift.

Lemma shiftLoop_acc (fuel : nat) : forall (i : Z) (shifts : list OperatorShift),
  shiftLoop body fuel i shifts = (shifts ++ shiftLoop body fuel i [])%list.
Proof.
  induction fuel as [|fuel IH]; intros i shifts; simpl.
  - now rewrite app_nil_r.
  - destruct (body i) as [s|]; [|apply IH].
    rewrite (IH _ (shifts ++ [s])%list), (IH _ ([] ++ [s])%list).
    now rewrite <- app_assoc.
Qed.

Lemma shiftLoop_step (fuel : nat) (i : Z) :
  shiftLoop body (S fuel) i []
  = match body i with
    | Some s => s :: shiftLoop body fuel (i + 1) []
    | None => shiftLoop body fuel (i + 1) []
    end.
Proof.
  simpl. destruct (body i) as [s|]; [|reflexivity].
  now rewrite shiftLoop_acc.
Qed.

Lemma shiftLoop_length (fuel : nat) : forall i : Z,
  (length (shiftLoop body fuel i []) <= fuel)%nat.
Proof.
  induction fuel as [|fuel IH]; intros i; [simpl; lia|].
  rewrite shiftLoop_step. specialize (IH (i + 1)).
  destruct (body i); simpl; lia.
Qed.

(** Whatever holds of every shift that an iteration can push holds of every
    emitted shift. *)
Lemma shiftLoop_Forall (P : OperatorShift -> Prop) :
  (forall i s, body i = Some s -> P s) ->
  forall (fuel : nat) (i : Z), Forall P (shiftLoop body fuel i []).
Proof.
  intros HP. induction fuel as [|fuel IH]; intros i; [constructor|].
  rewrite shiftLoop_step. destruct (body i) as [s|] eqn:Hs; [|apply IH].
  constructor; [now apply (HP i)|apply IH].
Qed.

(** Once an index is skipped, the later ones are: the emitted shifts come
    from an initial segment of the operator indices. *)
Hypothesis skip_stays : forall i, body i = None -> body (i + 1) = None.

Lemma shiftLoop_skipped (fuel : nat) : forall i : Z,
  body i = None -> shiftLoop body fuel i [] = [].
Proof.
  induction fuel as [|fuel IH]; intros i Hi; [reflexivity|].
  rewrite shiftLoop_step, Hi. apply IH, skip_stays, Hi.
Qed.

Hypothesis body_shiftId : forall i s, body i = Some s -> shiftId s = i + 1.

Lemma shiftLoop_shiftIds (fuel : nat) : forall i : Z,
  map shiftId (shiftLoop body fuel i [])
  = map (fun j => i + Z.of_nat j) (seq 1 (length (shiftLoop body fuel i []))).
Proof.
  induction fuel as [|fuel IH]; intros i; [reflexivity|].
  rewrite shiftLoop_step. destruct (body i) as [s|] eqn:Hs.
  - cbn [map length seq]. rewrite (body_shiftId i s Hs), IH.
    f_equal; try lia. rewrite <- (seq_shift _ 1), map_map.
    apply map_ext. intros j. lia.
  - rewrite shiftLoop_skipped by (apply skip_stays, Hs). reflexivity.
Qed.

End ShiftLoop.

(** Two loop bodies that skip the same indices and push related shifts emit
    lists that are related shift by shift. *)
Lemma shiftLoop_Forall2 (R : OperatorShift -> OperatorShift -> Prop)
    (body1 body2 : Z -> option OperatorShift) :
  (forall i, option_Forall2 R (body1 i) (body2 i)) ->
  forall (fuel : nat) (i : Z),
    Forall2 R (shiftLoop body1 fuel i []) (shiftLoop body2 fuel i []).
Proof.
  intros Hrel. induction fuel as [|fuel IH]; intros i; [constructor|].
  rewrite !shiftLoop_step.
  destruct (Hrel i) as [a b' Hab|]; [constructor; [exact Hab|]|]; apply IH.
Qed.

Section ShiftBody.

Variables (province : Province) (shiftDuration : Z).

Lemma shiftBody_skip_stays (i : Z) :
  Utils.shiftBody province shiftDuration i = None ->
  Utils.shiftBody province shiftDuration (i + 1) = None.
Proof.
  unfold Utils.shiftBody. rewrite !floor_div_Zdiv by lia.
  destruct (Z.geb_spec (work_start_time province + i * 15 / 60) (work_end_time province));
    [|discriminate].
  intros _.
  destruct (Z.geb_spec (work_start_time province + (i + 1) * 15 / 60)
                       (work_end_time province)); [reflexivity|].
  pose proof (Z.div_le_mono (i * 15) ((i + 1) * 15) 60 ltac:(lia) ltac:(lia)). lia.
Qed.

Lemma shiftBody_shiftId (i : Z) (s : OperatorShift) :
  Utils.shiftBody province shiftDuration i = Some s -> shiftId s = i + 1.
Proof.
  unfold Utils.shiftBody. destruct (_ >=? _); [discriminate|].
  intros [= <-]. reflexivity.
Qed.

Lemma shiftBody_startTime (i : Z) (s : OperatorShift) :
  Utils.shiftBody province shiftDuration i = Some s ->
  exists startHour : Z,
    fst (Utils.parseTime (startTime s)) = Some startHour
    /\ startHour < work_end_time province.
Proof.
  unfold Utils.shiftBody.
  destruct (Z.geb_spec (work_start_time province + JS.floor_div (i * 15) 60)
                       (work_end_time province)) as [|Hlt]; [discriminate|].
  intros [= <-]. cbn [startTime]. rewrite parseTime_formatTime.
  eexists. split; [reflexivity|exact Hlt].
Qed.

End ShiftBody.

(** * Claims about the shift generators *)

(** C4. The worked example: three operators in the window 7 to 22 with shifts
    of 420 minutes start at 07:00, 07:15 and 07:30, end seven hours later, and
    have four ten-minute breaks 84 minutes apart, the first operator's at
    08:24, 09:48, 11:12 and 12:36. *)
Theorem generateOperatorShifts_example_7_22 :
  Utils.generateOperatorShifts
    {| id := "p"; name := "P"; zone_id := "z"; work_start_time := 7;
       work_end_time := 22; operators := 3 |} 3 420
  = [ {| shiftId := 1; startTime := "07:00"; endTime := "14:00"; duration := 420;
         breakSchedule :=
           {| firstBreak := "08:24-08:34"; secondBreak := "09:48-09:58";
              thirdBreak := "11:12-11:22"; fourthBreak := "12:36-12:46" |} |};
      {| shiftId := 2; startTime := "07:15"; endTime := "14:15"; duration := 420;
         breakSchedule :=
           {| firstBreak := "08:39-08:49"; secondBreak := "10:03-10:13";
              thirdBreak := "11:27-11:37"; fourthBreak := "12:51-13:01" |} |};
      {| shiftId := 3; startTime := "07:30"; endTime := "14:30"; duration := 420;
         breakSchedule :=
           {| firstBreak := "08:54-09:04"; secondBreak := "10:18-10:28";
              thirdBreak := "11:42-11:52"; fourthBreak := "13:06-13:16" |} |} ].
Proof. vm_compute. reflexivity. Qed.

(** C7. Every emitted shift starts at an hour strictly before
    [work_end_time], at most [operatorCount] shifts are emitted, and an
    [operatorCount] of zero or less gives the empty list; this holds for
    every shift duration. *)
Theorem generateOperatorShifts_within_window
    (province : Province) (operatorCount shiftDuration : Z) :
  Forall (fun s => exists startHour : Z,
                     fst (Utils.parseTime (startTime s)) = Some startHour
                     /\ startHour < work_end_time province)
         (Utils.generateOperatorShifts province operatorCount shiftDuration)
  /\ (0 <= operatorCount ->
      Z.of_nat (length (Utils.generateOperatorShifts province operatorCount shiftDuration))
      <= operatorCount)
  /\ (operatorCount <= 0 ->
      Utils.generateOperatorShifts province operatorCount shiftDuration = []).
Proof.
  unfold Utils.generateOperatorShifts.
  destruct (Z.leb_spec operatorCount 0) as [Hle|Hgt].
  - repeat split; [constructor|simpl; lia].
  - repeat split.
    + apply shiftLoop_Forall. apply shiftBody_startTime.
    + intros _.
      pose proof (shiftLoop_length (Utils.shiftBody province shiftDuration)
                    (Z.to_nat operatorCount) 0). lia.
    + lia.
Qed.

Lemma generateOperatorShifts_within_window_witness :
  (0 <= 70 ->
   Z.of_nat (length (Utils.generateOperatorShifts (province_7_22 "a" 70) 70 420)) <= 70)
  /\ (0 <= 0 -> Utils.generateOperatorShifts (province_7_22 "a" 70) 0 420 = []).
Proof.
  split.
  - apply (generateOperatorShifts_within_window (province_7_22 "a" 70) 70 420).
  - apply (generateOperatorShifts_within_window (province_7_22 "a" 70) 0 420).
Defined.

(** C8. The shift ids of the emitted list are 1, 2, ..., k in this order,
    k being the number of emitted shifts: the skipped operator indices are
    the last ones. *)
Theorem generateOperatorShifts_sequential_ids
    (province : Province) (operatorCount shiftDuration : Z) :
  map shiftId (Utils.generateOperatorShifts province operatorCount shiftDuration)
  = map Z.of_nat
      (seq 1 (length (Utils.generateOperatorShifts province operatorCount shiftDuration))).
Proof.
  unfold Utils.generateOperatorShifts.
  destruct (operatorCount <=? 0); [reflexivity|].
  rewrite (shiftLoop_shiftIds (Utils.shiftBody province shiftDuration)
             (shiftBody_skip_stays province shiftDuration)
             (shiftBody_shiftId province shiftDuration)).
  apply map_ext. intros j. lia.
Qed.

(** C1 as stated fails: for one operator in the window 7 to 22 the page puts
    the first break at 08:00 and the library at 08:24. *)
Lemma page_and_library_breaks_differ :
  Page.generateOperatorShifts (province_7_22 "a" 1) 1
  <> Utils.generateOperatorShifts (province_7_22 "a" 1) 1 420
  /\ map (fun s => firstBreak (breakSchedule s))
         (Page.generateOperatorShifts (province_7_22 "a" 1) 1) = ["08:00-08:10"]
  /\ map (fun s => firstBreak (breakSchedule s))
         (Utils.generateOperatorShifts (province_7_22 "a" 1) 1 420) = ["08:24-08:34"].
Proof. vm_compute. repeat split; congruence. Qed.

(** C1, amended. The generator of the page and the library generator at the
    default duration 420 emit the same number of shifts with the same shift
    ids, start times, end times and durations, for every province window and
    operator count.  The break windows are not those of the library at 420,
    which are 84 minutes apart: they are 60 minutes apart, the windows that
    the library computes for a duration of 300. *)
Theorem page_and_library_agree_on_times (province : Province) (operatorCount : Z) :
  Forall2 sameTimes
    (Page.generateOperatorShifts province operatorCount)
    (Utils.generateOperatorShifts province operatorCount 420)
  /\ Forall2 (fun a b => breakSchedule a = breakSchedule b)
       (Page.generateOperatorShifts province operatorCount)
       (Utils.generateOperatorShifts province operatorCount 300).
Proof.
  unfold Page.generateOperatorShifts, Utils.generateOperatorShifts.
  destruct (operatorCount <=? 0); [split; constructor|].
  split; apply shiftLoop_Forall2; intros i;
    unfold Page.shiftBody, Utils.shiftBody;
    destruct (_ >=? _); constructor.
  - repeat split.
  - reflexivity.
Qed.

(** C3 as stated fails: the operator who starts at 07:45 is not counted as
    active at hour 7, although 7 <= 7 < 14. *)
Lemma quarter_to_eight_not_active_at_seven :
  shift_0745 ∈ Page.generateOperatorShifts (province_7_22 "a" 4) 4
  /\ Page.parseTime (startTime shift_0745) = (Some 7, Some 45)
  /\ Page.parseTime (endTime shift_0745) = (Some 14, Some 45)
  /\ 7 <= 7 < 14
  /\ Page.activeDuringHour 7 shift_0745 = false.
Proof.
  split; [|vm_compute; repeat split; congruence].
  apply list_elem_of_In. vm_compute. tauto.
Qed.

(** C3, amended. For a shift generated by the page, which is the shift of
    operator index [i = shiftId - 1], the active-during-hour test holds at
    hour [h] iff [h < endHour] and either [startHour < h], or [startHour = h]
    and the start minute is zero: a shift that starts within the hour (as at
    7:45) is counted from the next hour on. *)
Theorem activeDuringHour_generated
    (province : Province) (operatorCount : Z) (s : OperatorShift) (h : Z) :
  s ∈ Page.generateOperatorShifts province operatorCount ->
  let i := shiftId s - 1 in
  let startHour := work_start_time province + i * 15 / 60 in
  let startMinute := Z.rem (i * 15) 60 in
  let endHour := Z.rem (startHour * 60 + startMinute + 420) (24 * 60) / 60 in
  Page.parseTime (startTime s) = (Some startHour, Some startMinute)
  /\ fst (Page.parseTime (endTime s)) = Some endHour
  /\ (Page.activeDuringHour h s = true
      <-> (startHour < h \/ (startHour = h /\ startMinute = 0)) /\ h < endHour).
Proof.
  unfold Page.generateOperatorShifts.
  destruct (operatorCount <=? 0); [intros H; inversion H|].
  intros Hin. pattern s. revert s Hin. apply Forall_forall.
  apply shiftLoop_Forall. intros i s.
  unfold Page.shiftBody. rewrite !floor_div_Zdiv by lia. unfold JS.rem.
  destruct (_ >=? _); [discriminate|]. intros [= <-].
  cbn [shiftId startTime endTime]. replace (i + 1 - 1) with i by lia. cbv zeta.
  unfold Page.activeDuringHour. cbn [startTime endTime].
  rewrite !page_parseTime_formatTime. cbn [fst snd Page.num_lt Page.num_eq].
  split; [reflexivity|]. split; [reflexivity|].
  rewrite andb_true_iff, orb_true_iff, andb_true_iff.
  rewrite !Z.ltb_lt, !Z.eqb_eq. tauto.
Qed.

Lemma activeDuringHour_generated_witness :
  Page.activeDuringHour 8 shift_0745 = true
  <-> (7 < 8 \/ (7 = 8 /\ 45 = 0)) /\ 8 < 14.
Proof.
  apply (activeDuringHour_generated (province_7_22 "a" 4) 4 shift_0745 8).
  apply list_elem_of_In. vm_compute. tauto.
Defined.

(** * Claims about the distribution page *)

Section PageLemmas.

Lemma filter_sublist {A} (f : A -> bool) (l : list A) : List.filter f l `sublist_of` l.
Proof.
  induction l as [|x l IH]; simpl; [constructor|].
  destruct (f x); now constructor.
Qed.

Lemma slice0_nonneg {A} (n : Z) (l : list A) :
  0 <= n -> JS.slice0 n l = take (Z.to_nat n) l.
Proof. intros Hn. unfold JS.slice0. destruct (Z.ltb_spec n 0); [lia|reflexivity]. Qed.

Lemma orDefault_nonzero (x : option Z) (fallback : Z) :
  fallback <> 0 -> Page.orDefault x fallback <> 0.
Proof.
  intros Hf. unfold Page.orDefault. destruct x as [v|]; [|exact Hf].
  destruct (Z.eqb_spec v 0); assumption.
Qed.

Lemma ceil_zero_share (n : Z) : Qceiling (inject_Z n * 0) = 0.
Proof.
  unfold Qceiling, Qmult, Qopp, inject_Z, Qfloor. simpl.
  now rewrite Z.mul_0_r.
Qed.

End PageLemmas.

(** C9. A manual adjustment of one hour and province, with both indices in
    range, succeeds, leaves the [operatorShifts] record as it is, and sets
    the displayed shift list of that entry to the province's stored roster
    filtered to the hour and cut to the new count, a sublist of the roster;
    every other entry of the table is unchanged. *)
Theorem handleOperatorChange_selects_from_roster
    (st : PageState) (hourIndex provinceIndex : nat) (change : Z)
    (period : DistributionPeriod) (entry : ProvinceDistribution) :
  distribution st !! hourIndex = Some period ->
  period_provinces period !! provinceIndex = Some entry ->
  (forall z, List.find (fun z => String.eqb (zone_ident z) (selectedZone st)) (zones st) = Some z ->
             (provinceIndex < length (provinces z))%nat) ->
  let roster := default [] (operatorShifts st !! provinceId entry) in
  exists st' period' entry',
    Page.handleOperatorChange st hourIndex provinceIndex change = Some st'
    /\ operatorShifts st' = operatorShifts st
    /\ distribution st' !! hourIndex = Some period'
    /\ period_provinces period' !! provinceIndex = Some entry'
    /\ pd_operatorShifts entry'
       = take (Z.to_nat (pd_operators entry'))
              (List.filter (Page.activeDuringHour (hour period)) roster)
    /\ pd_operatorShifts entry' `sublist_of` roster
    /\ (forall j, j <> hourIndex -> distribution st' !! j = distribution st !! j)
    /\ (forall j, j <> provinceIndex ->
                  period_provinces period' !! j = period_provinces period !! j).
Proof.
  intros Hperiod Hentry Hzone roster. unfold Page.handleOperatorChange.
  rewrite Hperiod. cbn [mbind option_bind]. rewrite Hentry. cbn [mbind option_bind].
  set (zone := List.find _ (zones st)) in *.
  assert (Hmax : exists maxOperators,
             match zone with
             | Some z => (fun p => Page.orDefault (Some (operators p)) 0)
                           <$> provinces z !! provinceIndex
             | None => Some 0
             end = Some maxOperators).
  { destruct zone as [z|]; [|eauto].
    destruct (lookup_lt_is_Some_2 (provinces z) provinceIndex (Hzone z eq_refl)) as [q Hq].
    rewrite Hq. simpl. eauto. }
  destruct Hmax as [maxOperators ->]. cbn [mbind option_bind].
  set (newOperators := Z.max 0 (Z.min (pd_operators entry + change) maxOperators)).
  rewrite slice0_nonneg by (unfold newOperators; lia).
  eexists _, _, _. split; [reflexivity|]. cbn [operatorShifts distribution].
  split; [reflexivity|].
  split; [apply list_lookup_insert_eq; now apply lookup_lt_Some with period|].
  cbn [period_provinces].
  split; [apply list_lookup_insert_eq; now apply lookup_lt_Some with entry|].
  cbn [pd_operatorShifts pd_operators].
  split; [reflexivity|].
  split.
  - etransitivity; [apply sublist_take|apply filter_sublist].
  - split; intros j Hj; apply list_lookup_insert_ne; congruence.
Qed.

Lemma handleOperatorChange_selects_from_roster_witness :
  exists st', Page.handleOperatorChange page_of_twelve 0 0 2 = Some st'
              /\ operatorShifts st' = operatorShifts page_of_twelve.
Proof.
  destruct (handleOperatorChange_selects_from_roster page_of_twelve 0 0 2
              period_at_seven entry_at_seven)
    as (st' & _ & _ & Hrun & Hframe & _).
  - vm_compute. reflexivity.
  - reflexivity.
  - intros z Hz. vm_compute in Hz. injection Hz as <-. simpl. lia.
  - exists st'. split; [exact Hrun|exact Hframe].
Defined.

(** C10. In every entry of the calculated table the break time is
    [floor (n / 6) * standard_break_time], [n] being the operator count
    computed for the province at that hour before the active-shift filter:
    [min (ceil (totalOperatorsNeeded * share), operators)], the share and the
    product being doubles as in the code, when the province works at that
    hour and [0] otherwise.  It is not derived from the [operators] field:
    with twelve operators computed at hour 7 the break time is 20 while one
    shift is active and [operators] is 1.  The product is rounded as a double:
    for 46 of 82 operators and 41 operators needed it lies just above 23, so
    that [n] is 24 and the break time 40. *)
Theorem breakTime_from_computed_count :
  (forall (zone : Zone) (callVolumeData : list CallVolumeItem)
          (parameters : option SystemParameters)
          (period : DistributionPeriod) (k : nat) (province : Province)
          (entry : ProvinceDistribution),
      period ∈ snd (Page.calculate zone callVolumeData parameters) ->
      provinces zone !! k = Some province ->
      period_provinces period !! k = Some entry ->
      let averageResponseRate := Page.orDefault (average_response_rate <$> parameters) 80 in
      let standardBreakTime := Page.orDefault (standard_break_time <$> parameters) 10 in
      let totalOperatorsNeeded := - ((- totalCallVolume period) / averageResponseRate) in
      let totalProvinceOperators :=
        fold_left (fun sum p => sum + operators p) (provinces zone) 0 in
      let provinceShare :=
        if totalProvinceOperators >? 0
        then JS.double_div (JS.toDouble (operators province))
                           (JS.toDouble totalProvinceOperators)
        else JS.toDouble 0 in
      let n :=
        if (hour period >=? work_start_time province) && (hour period <? work_end_time province)
        then JS.min_ceil (JS.double_mul (JS.toDouble totalOperatorsNeeded) provinceShare)
                         (operators province)
        else 0 in
      pd_breakTime entry = n / 6 * standardBreakTime)
  /\ (distribution page_of_twelve !! 0%nat = Some period_at_seven
      /\ pd_breakTime entry_at_seven = 20
      /\ pd_operators entry_at_seven = 1
      /\ pd_breakTime entry_at_seven <> pd_operators entry_at_seven / 6 * 10)
  /\ map (fun period => map pd_breakTime (period_provinces period))
         (List.filter (fun period => hour period =? 13)
                      (snd (Page.calculate zone_46_36 calls_at_thirteen None)))
     = [[40; 30]].
Proof.
  split; [|split].
  - intros zone callVolumeData parameters period k province entry Hperiod Hprov Hentry.
    unfold Page.calculate in Hperiod. cbn [snd] in Hperiod.
    apply list_elem_of_fmap in Hperiod as (h & -> & _).
    cbn [period_provinces totalCallVolume hour] in *.
    rewrite list_lookup_fmap, Hprov in Hentry. injection Hentry as <-.
    unfold Page.provinceDistribution. cbn [pd_breakTime].
    rewrite floor_div_Zdiv by lia.
    rewrite ceil_div_Zdiv by (apply orDefault_nonzero; lia).
    reflexivity.
  - vm_compute. repeat split; congruence.
  - vm_compute. reflexivity.
Qed.

Lemma breakTime_from_computed_count_witness :
  pd_breakTime entry_at_seven = 12 / 6 * 10.
Proof.
  destruct breakTime_from_computed_count as [Hall _].
  apply (Hall zone_of_twelve calls_at_seven None period_at_seven 0%nat
              (province_7_22 "a" 12) entry_at_seven).
  - apply list_elem_of_In. vm_compute. left. reflexivity.
  - reflexivity.
  - reflexivity.
Defined.

(** * Further properties: clock strings *)

Section ClockStrings.

Lemma formatTime_inj (h m h' m' : Z) :
  Utils.formatTime h m = Utils.formatTime h' m' -> h = h' /\ m = m'.
Proof.
  intros Heq. apply (f_equal Utils.parseTime) in Heq.
  rewrite !parseTime_formatTime in Heq. now injection Heq.
Qed.

Lemma padded_length_two (n : Z) :
  0 <= n < 100 -> String.length (JS.padStart 2 "0" (JS.toString n)) = 2%nat.
Proof.
  intros Hn. rewrite <- (Z2Nat.id n) by lia.
  assert (Hk : (Z.to_nat n < 100)%nat) by lia.
  generalize dependent (Z.to_nat n). clear n Hn. intros k Hk.
  do 100 (destruct k as [|k]; [reflexivity|]). lia.
Qed.

Lemma string_length_append (s t : string) :
  String.length (s ++ t) = (String.length s + String.length t)%nat.
Proof.
  induction s as [|c s IH]; rewrite ?append_nil_l, ?append_cons; simpl; [reflexivity|].
  now rewrite IH.
Qed.

Lemma addMinutesToTime_formatTime (h m a : Z) :
  Utils.addMinutesToTime (Utils.formatTime h m) a
  = Utils.formatTime (Z.rem (h + (m + a) / 60) 24) (Z.rem (m + a) 60).
Proof.
  unfold Utils.addMinutesToTime. rewrite parseTime_formatTime. simpl.
  now rewrite floor_div_Zdiv by lia.
Qed.

Lemma page_addMinutesToTime_formatTime (h m a : Z) :
  Page.addMinutesToTime (Page.formatTime h m) a
  = Utils.formatTime (h + (m + a) / 60) (Z.rem (m + a) 60).
Proof.
  unfold Page.addMinutesToTime. rewrite page_parseTime_formatTime. simpl.
  now rewrite floor_div_Zdiv by lia.
Qed.

End ClockStrings.

(** X1. [parseTime] reads back the hour and the minute that [formatTime]
    printed, for all integers of the safe range (up to 2^53 - 1 in absolute
    value, where a number prints with all its digits); for numbers below 100,
    as clock values are, the string has the five characters of [HH:MM]. *)
Theorem formatTime_roundtrip_and_width :
  (forall hour minute : Z,
      Z.abs hour <= 9007199254740991 -> Z.abs minute <= 9007199254740991 ->
      Utils.parseTime (Utils.formatTime hour minute) = (Some hour, Some minute))
  /\ (forall hour minute : Z,
         0 <= hour < 100 -> 0 <= minute < 100 ->
         String.length (Utils.formatTime hour minute) = 5%nat).
Proof.
  split; [intros hour minute _ _; apply parseTime_formatTime|].
  intros hour minute Hh Hm. unfold Utils.formatTime.
  rewrite !string_length_append, !padded_length_two by assumption. reflexivity.
Qed.

Lemma formatTime_roundtrip_and_width_witness :
  Utils.parseTime (Utils.formatTime (-3) 1234) = (Some (-3), Some 1234)
  /\ String.length (Utils.formatTime 7 45) = 5%nat.
Proof.
  split.
  - apply (proj1 formatTime_roundtrip_and_width (-3) 1234); simpl; lia.
  - apply (proj2 formatTime_roundtrip_and_width 7 45); lia.
Defined.

(** X2. Adding minutes to a clock time wraps at midnight: for an hour that is
    not negative and a minute sum that is not negative, the result is the
    clock time of [hour * 60 + minute + minutesToAdd] minutes modulo one day,
    with its hour below 24 and its minute below 60. *)
Theorem addMinutesToTime_wraps (hour minute minutesToAdd : Z) :
  0 <= hour -> 0 <= minute + minutesToAdd ->
  let total := hour * 60 + minute + minutesToAdd in
  Utils.addMinutesToTime (Utils.formatTime hour minute) minutesToAdd
  = Utils.formatTime (total mod 1440 / 60) (total mod 60)
  /\ 0 <= total mod 1440 / 60 < 24
  /\ 0 <= total mod 60 < 60.
Proof.
  intros Hh Hm total. rewrite addMinutesToTime_formatTime.
  assert (Hdiv : 0 <= (minute + minutesToAdd) / 60) by (apply Z.div_pos; lia).
  rewrite !Z.rem_mod_nonneg by lia.
  split; [|subst total; Z.div_mod_to_equations; lia].
  f_equal; subst total; Z.div_mod_to_equations; lia.
Qed.

Lemma addMinutesToTime_wraps_witness :
  Utils.addMinutesToTime (Utils.formatTime 23 30) 45 = Utils.formatTime 0 15.
Proof.
  apply (addMinutesToTime_wraps 23 30 45); lia.
Defined.

(** X3. Additions compose: adding [a] and then [b] minutes to a clock time
    gives the same string as adding [a + b] at once, for additions that are
    not negative. *)
Theorem addMinutesToTime_compose (hour minute a b : Z) :
  0 <= hour -> 0 <= minute -> 0 <= a -> 0 <= b ->
  Utils.addMinutesToTime (Utils.addMinutesToTime (Utils.formatTime hour minute) a) b
  = Utils.addMinutesToTime (Utils.formatTime hour minute) (a + b).
Proof.
  intros Hh Hm Ha Hb. rewrite !addMinutesToTime_formatTime.
  assert (0 <= (minute + a) / 60) by (apply Z.div_pos; lia).
  assert (0 <= (minute + (a + b)) / 60) by (apply Z.div_pos; lia).
  rewrite (Z.rem_mod_nonneg (minute + a)) by lia.
  rewrite (Z.rem_mod_nonneg (hour + (minute + a) / 60)) by lia.
  assert (0 <= ((minute + a) mod 60 + b) / 60)
    by (apply Z.div_pos; [pose proof (Z.mod_pos_bound (minute + a) 60); lia|lia]).
  pose proof (Z.mod_pos_bound (hour + (minute + a) / 60) 24 ltac:(lia)).
  pose proof (Z.mod_pos_bound (minute + a) 60 ltac:(lia)).
  rewrite !Z.rem_mod_nonneg by lia.
  f_equal; Z.div_mod_to_equations; lia.
Qed.

Lemma addMinutesToTime_compose_witness :
  Utils.addMinutesToTime (Utils.addMinutesToTime (Utils.formatTime 22 50) 45) 50
  = Utils.addMinutesToTime (Utils.formatTime 22 50) (45 + 50).
Proof.
  apply (addMinutesToTime_compose 22 50 45 50); lia.
Defined.

(** X4. A time string whose minute part does not parse (no colon, or no
    digits after it) gives ["NaN:NaN"], whatever is added: the hour is lost
    too. *)
Theorem addMinutesToTime_unparsed_minute (timeStr : string) (minutesToAdd : Z) :
  snd (Utils.parseTime timeStr) = None ->
  Utils.addMinutesToTime timeStr minutesToAdd = "NaN:NaN".
Proof.
  intros Hmin. unfold Utils.addMinutesToTime.
  destruct (Utils.parseTime timeStr) as [hour minute]. simpl in Hmin. subst minute.
  destruct hour; reflexivity.
Qed.

Lemma addMinutesToTime_unparsed_minute_witness :
  Utils.addMinutesToTime "07" 30 = "NaN:NaN".
Proof.
  apply (addMinutesToTime_unparsed_minute "07" 30). reflexivity.
Defined.

(** X5. The page's own [addMinutesToTime] does not wrap the hour: on a clock
    time it agrees with the library function exactly when the sum stays
    before midnight. *)
Theorem page_addMinutesToTime_agrees_before_midnight (hour minute minutesToAdd : Z) :
  0 <= hour -> 0 <= minute + minutesToAdd ->
  (Page.addMinutesToTime (Page.formatTime hour minute) minutesToAdd
   = Utils.addMinutesToTime (Utils.formatTime hour minute) minutesToAdd
   <-> hour * 60 + minute + minutesToAdd < 1440).
Proof.
  intros Hh Hm.
  rewrite page_addMinutesToTime_formatTime, addMinutesToTime_formatTime.
  assert (Hdiv : 0 <= (minute + minutesToAdd) / 60) by (apply Z.div_pos; lia).
  rewrite (Z.rem_mod_nonneg (hour + (minute + minutesToAdd) / 60)) by lia.
  split.
  - intros Heq. apply formatTime_inj in Heq as [Heq _].
    Z.div_mod_to_equations. lia.
  - intros Hlt. f_equal. Z.div_mod_to_equations. lia.
Qed.

Lemma page_addMinutesToTime_agrees_before_midnight_witness :
  Page.addMinutesToTime (Page.formatTime 23 30) 45
  = Utils.addMinutesToTime (Utils.formatTime 23 30) 45
  <-> 23 * 60 + 30 + 45 < 1440.
Proof.
  apply (page_addMinutesToTime_agrees_before_midnight 23 30 45); lia.
Defined.

(** * Further properties: the shift generators *)

Section ShiftCount.

Variables (body : Z -> option OperatorShift) (threshold : Z).

Hypothesis body_some : forall i, is_Some (body i) <-> i < threshold.

Lemma shiftLoop_count (fuel : nat) : forall i : Z,
  Z.of_nat (length (shiftLoop body fuel i []))
  = Z.max 0 (Z.min (i + Z.of_nat fuel) threshold - i).
Proof.
  induction fuel as [|fuel IH]; intros i; [simpl; lia|].
  rewrite shiftLoop_step. specialize (IH (i + 1)).
  destruct (body i) as [s|] eqn:Hs.
  - assert (i < threshold) by (apply body_some; rewrite Hs; eauto).
    cbn [length]. lia.
  - assert (~ i < threshold) by (rewrite <- body_some, Hs; intros [? [=]]).
    lia.
Qed.

End ShiftCount.

Lemma shiftLoop_Forall_from (body : Z -> option OperatorShift)
    (P : OperatorShift -> Prop) (fuel : nat) : forall lo : Z,
  (forall i s, lo <= i -> body i = Some s -> P s) ->
  Forall P (shiftLoop body fuel lo []).
Proof.
  induction fuel as [|fuel IH]; intros lo HP; [constructor|].
  rewrite shiftLoop_step. destruct (body lo) as [s|] eqn:Hs.
  - constructor; [apply (HP lo); [lia|exact Hs]|].
    apply IH. intros i s' Hi. apply HP. lia.
  - apply IH. intros i s' Hi. apply HP. lia.
Qed.

Section DashFree.

Lemma uint_dash_free (d : uint) :
  Forall (fun c => c <> "-"%char) (list_ascii_of_string (NilEmpty.string_of_uint d)).
Proof. induction d; simpl; constructor; auto; discriminate. Qed.

Lemma free_append (sep : ascii) (a b : string) :
  Forall (fun c => c <> sep) (list_ascii_of_string a) ->
  Forall (fun c => c <> sep) (list_ascii_of_string b) ->
  Forall (fun c => c <> sep) (list_ascii_of_string (a ++ b)).
Proof.
  intros Ha Hb. induction a as [|c a IH]; rewrite ?append_nil_l, ?append_cons; [exact Hb|].
  simpl in *. apply Forall_cons in Ha as [Hc Ha]. constructor; auto.
Qed.

Lemma repeat_zero_dash_free (n : nat) :
  Forall (fun c => c <> "-"%char) (list_ascii_of_string (JS.repeat_char "0" n)).
Proof. induction n; simpl; constructor; [discriminate|exact IHn]. Qed.

Lemma padded_dash_free (n : Z) :
  0 <= n ->
  Forall (fun c => c <> "-"%char)
         (list_ascii_of_string (JS.padStart 2 "0" (JS.toString n))).
Proof.
  intros Hn. unfold JS.padStart. apply free_append; [apply repeat_zero_dash_free|].
  destruct n; try lia; unfold JS.toString; cbn [Z.to_int NilEmpty.string_of_int].
  - simpl. repeat constructor. discriminate.
  - apply uint_dash_free.
Qed.

Lemma formatTime_dash_free (hour minute : Z) :
  0 <= hour -> 0 <= minute ->
  Forall (fun c => c <> "-"%char) (list_ascii_of_string (Utils.formatTime hour minute)).
Proof.
  intros Hh Hm. unfold Utils.formatTime.
  apply free_append; [now apply padded_dash_free|].
  apply free_append; [repeat constructor; discriminate|now apply padded_dash_free].
Qed.

(** The first part of a break string is its start time. *)
Lemma split_break_string (hour minute : Z) (rest : string) :
  0 <= hour -> 0 <= minute ->
  exists tail, JS.split "-" (Utils.formatTime hour minute ++ "-" ++ rest)
               = Utils.formatTime hour minute :: tail.
Proof.
  intros Hh Hm. unfold JS.split.
  rewrite split_aux_free by now apply formatTime_dash_free.
  rewrite append_nil_l.
  change ("-" ++ rest) with (String "-" rest). simpl. eauto.
Qed.

Lemma checkBreakTime_breakTime (h interval j : Z) (hour minute : Z) :
  0 <= hour -> 0 <= minute -> 0 <= hour * 60 + minute + (j + 1) * interval ->
  Utils.checkBreakTime h (Utils.breakString (Utils.breakTime hour minute interval j))
  = ((hour * 60 + minute + (j + 1) * interval) mod 1440 / 60 =? h).
Proof.
  intros Hh Hm Hsum. unfold Utils.breakString, Utils.breakTime. cbn [start end_].
  unfold JS.rem. rewrite !floor_div_Zdiv by lia.
  change (24 * 60) with 1440.
  rewrite (Z.rem_mod_nonneg (hour * 60 + minute + (j + 1) * interval)) by lia.
  set (X := (hour * 60 + minute + (j + 1) * interval) mod 1440).
  assert (HX : 0 <= X < 1440) by (apply Z.mod_pos_bound; lia).
  unfold Utils.checkBreakTime.
  destruct (split_break_string (X / 60) (Z.rem X 60)
              (Utils.formatTime (Z.rem (X + 10) 1440 / 60) (Z.rem (Z.rem (X + 10) 1440) 60)))
    as [tail ->].
  - apply Z.div_pos; lia.
  - rewrite Z.rem_mod_nonneg by lia. apply Z.mod_pos_bound. lia.
  - now rewrite parseTime_formatTime.
Qed.

End DashFree.

Lemma page_checkBreakTime_eq (h : Z) (breakTime : string) :
  Page.checkBreakTime h breakTime = Utils.checkBreakTime h breakTime.
Proof.
  unfold Page.checkBreakTime, Utils.checkBreakTime, Page.parseTime, Utils.parseTime.
  destruct (JS.split "-" breakTime) as [|start tail]; [reflexivity|].
  cbn [fst]. destruct (from_option JS.parseInt None (JS.split ":" start !! 0%nat)); reflexivity.
Qed.

Lemma shiftBody_is_Some (province : Province) (shiftDuration i : Z) :
  is_Some (Utils.shiftBody province shiftDuration i)
  <-> i < 4 * (work_end_time province - work_start_time province).
Proof.
  unfold Utils.shiftBody. rewrite !floor_div_Zdiv by lia.
  destruct (Z.geb_spec (work_start_time province + i * 15 / 60) (work_end_time province)).
  - split; [intros [? [=]]|]. intros Hi. exfalso. Z.div_mod_to_equations. lia.
  - split; [|eauto]. intros _. Z.div_mod_to_equations. lia.
Qed.

Lemma page_shiftBody_is_Some (province : Province) (i : Z) :
  is_Some (Page.shiftBody province i)
  <-> i < 4 * (work_end_time province - work_start_time province).
Proof.
  unfold Page.shiftBody. rewrite !floor_div_Zdiv by lia.
  destruct (Z.geb_spec (work_start_time province + i * 15 / 60) (work_end_time province)).
  - split; [intros [? [=]]|]. intros Hi. exfalso. Z.div_mod_to_equations. lia.
  - split; [|eauto]. intros _. Z.div_mod_to_equations. lia.
Qed.

(** X6. The number of emitted shifts is the operator count capped by the
    room of the window, four staggered starts per hour of the window: both
    generators emit [max 0 (min operatorCount (4 * (work_end_time -
    work_start_time)))] shifts. *)
Theorem generateOperatorShifts_count
    (province : Province) (operatorCount shiftDuration : Z) :
  let room := 4 * (work_end_time province - work_start_time province) in
  Z.of_nat (length (Utils.generateOperatorShifts province operatorCount shiftDuration))
  = Z.max 0 (Z.min operatorCount room)
  /\ Z.of_nat (length (Page.generateOperatorShifts province operatorCount))
     = Z.max 0 (Z.min operatorCount room).
Proof.
  unfold Utils.generateOperatorShifts, Page.generateOperatorShifts.
  destruct (Z.leb_spec operatorCount 0); [simpl; lia|].
  rewrite (shiftLoop_count _ _ (shiftBody_is_Some province shiftDuration)).
  rewrite (shiftLoop_count _ _ (page_shiftBody_is_Some province)).
  lia.
Qed.

(** X7. In a window that does not start before hour 0 and for a duration that
    is not negative, the shift with id [k] starts [15 * (k - 1)] minutes after
    the window opens, inside the window, and ends [shiftDuration] minutes
    later on the 24-hour clock: both strings parse, the end hour is below 24,
    and the [duration] field is [shiftDuration]. *)
Theorem generateOperatorShifts_times
    (province : Province) (operatorCount shiftDuration : Z) (s : OperatorShift) :
  0 <= work_start_time province ->
  0 <= shiftDuration ->
  s ∈ Utils.generateOperatorShifts province operatorCount shiftDuration ->
  let startMinutes := work_start_time province * 60 + 15 * (shiftId s - 1) in
  let endMinutes := (startMinutes + shiftDuration) mod 1440 in
  Utils.parseTime (startTime s) = (Some (startMinutes / 60), Some (startMinutes mod 60))
  /\ work_start_time province <= startMinutes / 60 < work_end_time province
  /\ Utils.parseTime (endTime s) = (Some (endMinutes / 60), Some (endMinutes mod 60))
  /\ 0 <= endMinutes / 60 < 24
  /\ duration s = shiftDuration.
Proof.
  intros Hws Hd. unfold Utils.generateOperatorShifts.
  destruct (operatorCount <=? 0); [intros H; inversion H|].
  intros Hin. pattern s. revert s Hin. apply Forall_forall.
  apply shiftLoop_Forall_from. intros i s Hi.
  unfold Utils.shiftBody. rewrite !floor_div_Zdiv by lia. unfold JS.rem.
  destruct (Z.geb_spec (work_start_time province + i * 15 / 60) (work_end_time province));
    [discriminate|].
  intros [= <-]. cbn [shiftId startTime endTime duration].
  replace (i + 1 - 1) with i by lia. cbv zeta.
  change (24 * 60) with 1440.
  rewrite !parseTime_formatTime.
  assert (0 <= i * 15 / 60) by (apply Z.div_pos; lia).
  rewrite (Z.rem_mod_nonneg (i * 15)) by lia.
  pose proof (Z.mod_pos_bound (i * 15) 60 ltac:(lia)).
  rewrite (Z.rem_mod_nonneg (_ + shiftDuration)) by lia.
  pose proof (Z.mod_pos_bound
                ((work_start_time province + i * 15 / 60) * 60 + (i * 15) mod 60 + shiftDuration)
                1440 ltac:(lia)).
  rewrite (Z.rem_mod_nonneg (_ mod 1440)) by lia.
  assert (Hstart : (work_start_time province + i * 15 / 60) * 60 + (i * 15) mod 60
                   = work_start_time province * 60 + 15 * i)
    by (Z.div_mod_to_equations; lia).
  rewrite Hstart in *.
  repeat split; try (f_equal; f_equal; Z.div_mod_to_equations; lia);
    Z.div_mod_to_equations; lia.
Qed.

Lemma generateOperatorShifts_times_witness :
  Utils.parseTime (startTime shift_0715) = (Some 7, Some 15)
  /\ 7 <= 7 < 22
  /\ Utils.parseTime (endTime shift_0715) = (Some 14, Some 15)
  /\ 0 <= 14 < 24
  /\ duration shift_0715 = 420.
Proof.
  apply (generateOperatorShifts_times (province_7_22 "a" 3) 3 420 shift_0715).
  - simpl. lia.
  - lia.
  - apply list_elem_of_In. vm_compute. tauto.
Defined.

(** X8. For a shift generated by the library in a window that does not start
    before hour 0, [isOperatorOnBreak] holds at hour [h] exactly when one of
    the four breaks starts within hour [h], break [j] starting
    [j * floor (shiftDuration / 5)] minutes after the shift on the 24-hour
    clock. *)
Theorem isOperatorOnBreak_generated
    (province : Province) (operatorCount shiftDuration : Z) (s : OperatorShift) (h : Z) :
  0 <= work_start_time province ->
  0 <= shiftDuration ->
  s ∈ Utils.generateOperatorShifts province operatorCount shiftDuration ->
  let startMinutes := work_start_time province * 60 + 15 * (shiftId s - 1) in
  Utils.isOperatorOnBreak s h = true
  <-> exists j, 1 <= j <= 4
                /\ h = (startMinutes + j * (shiftDuration / 5)) mod 1440 / 60.
Proof.
  intros Hws Hd. unfold Utils.generateOperatorShifts.
  destruct (operatorCount <=? 0); [intros H; inversion H|].
  intros Hin. pattern s. revert s Hin. apply Forall_forall.
  apply shiftLoop_Forall_from. intros i s Hi.
  unfold Utils.shiftBody.
  destruct (_ >=? _); [discriminate|]. intros [= <-].
  unfold Utils.isOperatorOnBreak. cbn [shiftId breakSchedule firstBreak secondBreak
                                         thirdBreak fourthBreak].
  replace (i + 1 - 1) with i by lia.
  rewrite !floor_div_Zdiv by lia. unfold JS.rem.
  assert (0 <= i * 15 / 60) by (apply Z.div_pos; lia).
  assert (0 <= shiftDuration / 5) by (apply Z.div_pos; lia).
  rewrite (Z.rem_mod_nonneg (i * 15)) by lia.
  pose proof (Z.mod_pos_bound (i * 15) 60 ltac:(lia)).
  rewrite !checkBreakTime_breakTime by nia.
  assert (Hstart : (work_start_time province + i * 15 / 60) * 60 + (i * 15) mod 60
                   = work_start_time province * 60 + 15 * i)
    by (Z.div_mod_to_equations; lia).
  rewrite Hstart.
  change (0 + 1) with 1. change (1 + 1) with 2. change (2 + 1) with 3. change (3 + 1) with 4.
  rewrite !orb_true_iff, !Z.eqb_eq. split.
  - intros [[[<-|<-]|<-]|<-]; [exists 1|exists 2|exists 3|exists 4]; (split; [lia|reflexivity]).
  - intros (j & Hj & ->).
    assert (Hcases : j = 1 \/ j = 2 \/ j = 3 \/ j = 4) by lia.
    destruct Hcases as [->|[->|[->| ->]]]; tauto.
Qed.

Lemma isOperatorOnBreak_generated_witness :
  Utils.isOperatorOnBreak shift_0715 10 = true
  <-> exists j, 1 <= j <= 4 /\ 10 = (435 + j * 84) mod 1440 / 60.
Proof.
  apply (isOperatorOnBreak_generated (province_7_22 "a" 3) 3 420 shift_0715 10).
  - simpl. lia.
  - lia.
  - apply list_elem_of_In. vm_compute. tauto.
Defined.

(** X9. For a shift generated by the page in a window that does not start
    before hour 0, the page's [isOperatorOnBreak] holds exactly during the four
    hours that follow the start hour, counted on the 24-hour clock. *)
Theorem page_isOperatorOnBreak_generated
    (province : Province) (operatorCount : Z) (s : OperatorShift) (h : Z) :
  0 <= work_start_time province ->
  s ∈ Page.generateOperatorShifts province operatorCount ->
  let startHour := work_start_time province + (shiftId s - 1) * 15 / 60 in
  Page.isOperatorOnBreak s h = true
  <-> exists j, 1 <= j <= 4 /\ h = (startHour + j) mod 24.
Proof.
  intros Hws. unfold Page.generateOperatorShifts.
  destruct (operatorCount <=? 0); [intros H; inversion H|].
  intros Hin. pattern s. revert s Hin. apply Forall_forall.
  apply shiftLoop_Forall_from. intros i s Hi.
  unfold Page.shiftBody.
  destruct (_ >=? _); [discriminate|]. intros [= <-].
  unfold Page.isOperatorOnBreak. cbn [shiftId breakSchedule firstBreak secondBreak
                                        thirdBreak fourthBreak].
  replace (i + 1 - 1) with i by lia.
  rewrite !page_checkBreakTime_eq.
  change (Page.breakTime ?a ?b) with (fun j => Utils.breakTime a b 60 j). cbv beta.
  rewrite !floor_div_Zdiv by lia. unfold JS.rem.
  assert (0 <= i * 15 / 60) by (apply Z.div_pos; lia).
  rewrite (Z.rem_mod_nonneg (i * 15)) by lia.
  pose proof (Z.mod_pos_bound (i * 15) 60 ltac:(lia)).
  rewrite !checkBreakTime_breakTime by nia.
  change (0 + 1) with 1. change (1 + 1) with 2. change (2 + 1) with 3. change (3 + 1) with 4.
  rewrite !orb_true_iff, !Z.eqb_eq.
  assert (Hhour : forall j, 0 <= j ->
             ((work_start_time province + i * 15 / 60) * 60 + (i * 15) mod 60 + j * 60)
               mod 1440 / 60
             = (work_start_time province + i * 15 / 60 + j) mod 24)
    by (intros j Hj; Z.div_mod_to_equations; lia).
  rewrite !Hhour by lia. split.
  - intros [[[<-|<-]|<-]|<-]; [exists 1|exists 2|exists 3|exists 4]; (split; [lia|reflexivity]).
  - intros (j & Hj & ->).
    assert (Hcases : j = 1 \/ j = 2 \/ j = 3 \/ j = 4) by lia.
    destruct Hcases as [->|[->|[->| ->]]]; tauto.
Qed.

Lemma page_isOperatorOnBreak_generated_witness :
  Page.isOperatorOnBreak shift_0745 9 = true
  <-> exists j, 1 <= j <= 4 /\ 9 = (7 + j) mod 24.
Proof.
  apply (page_isOperatorOnBreak_generated (province_7_22 "a" 4) 4 shift_0745 9).
  - simpl. lia.
  - apply list_elem_of_In. vm_compute. tauto.
Defined.

(** * Further properties: the distribution mapping *)

Section DistributionMore.

Implicit Types (d : gmap string Z) (l : list Province) (p : Province).

Lemma assign_lookup_value (f : Province -> Z) l d (k : string) (c : Z) :
  fold_left (fun distribution province => <[id province := f province]> distribution) l d
    !! k = Some c ->
  d !! k = Some c \/ exists p, p ∈ l /\ id p = k /\ c = f p.
Proof.
  revert d. induction l as [|q l IH]; intros d H; simpl in H; [now left|].
  apply IH in H as [H|(p & Hp & Hk & Hc)].
  - destruct (decide (id q = k)) as [Heq|Hne].
    + right. exists q. rewrite <- Heq, lookup_insert_eq in H.
      split; [left|]. split; [exact Heq|congruence].
    + left. now rewrite lookup_insert_ne in H.
  - right. exists p. split; [now right|]. now split.
Qed.

Lemma assign_lookup_is_Some (f : Province -> Z) l d (k : string) :
  k ∈ map id l ->
  is_Some (fold_left (fun distribution province => <[id province := f province]> distribution)
                     l d !! k).
Proof.
  revert d. induction l as [|q l IH]; intros d Hk; simpl in *; [inversion Hk|].
  destruct (decide (k ∈ map id l)) as [Hin|Hout]; [now apply IH|].
  rewrite assign_lookup_other by exact Hout.
  apply elem_of_cons in Hk as [->|Hk]; [|contradiction].
  rewrite lookup_insert_eq. eauto.
Qed.

Lemma reduceLoop_keeps_one (total : Z) l (k : string) : forall d (a : Z),
  1 <= Utils.get d k -> 1 <= Utils.get (fst (Utils.reduceLoop total l (d, a))) k.
Proof.
  induction l as [|p l IH]; intros d a Hk; simpl; [exact Hk|].
  destruct (a <=? total); [exact Hk|].
  destruct (Z.gtb_spec (Z.min (a - total) (Utils.get d (id p) - 1)) 0); [|now apply IH].
  apply IH. destruct (decide (id p = k)) as [<-|Hne].
  - rewrite get_insert_eq. lia.
  - now rewrite get_insert_ne.
Qed.

End DistributionMore.

(** X10. The mapping holds the working provinces and no others: every key is
    the id of a province that works during the given hours, with a count that
    is at most the head count of such a province, and every working province
    has an entry. *)
Theorem distribution_keys_and_headcount
    (totalOperatorsNeeded : Z) (provinces : list Province) (workingHours : list Z) :
  0 <= totalOperatorsNeeded ->
  let distribution :=
    Utils.calculateOptimalDistribution totalOperatorsNeeded provinces workingHours in
  (forall (k : string) (count : Z),
      distribution !! k = Some count ->
      exists p, p ∈ provinces /\ Utils.worksDuring workingHours p = true
                /\ id p = k /\ count <= operators p)
  /\ (forall p, p ∈ provinces -> Utils.worksDuring workingHours p = true ->
                is_Some (distribution !! id p)).
Proof.
  intros _. unfold Utils.calculateOptimalDistribution.
  set (working := List.filter (Utils.worksDuring workingHours) provinces).
  assert (Hworking : forall p, p ∈ working <->
                       p ∈ provinces /\ Utils.worksDuring workingHours p = true).
  { intros p. unfold working. rewrite !list_elem_of_In. apply filter_In. }
  destruct working as [|q l] eqn:Hl.
  { cbn [length Nat.eqb]. split.
    - intros k count Hk. rewrite lookup_empty in Hk. discriminate.
    - intros p Hp Hw. exfalso. apply (elem_of_nil p), Hworking. now split. }
  cbn [length Nat.eqb]. rewrite <- Hl in *. clear Hl.
  set (cap := fold_left (fun sum province => sum + operators province) working 0).
  destruct (totalOperatorsNeeded >=? cap).
  - split.
    + intros k count Hk.
      apply (assign_lookup_value operators) in Hk as [Hk|(p & Hp & Hid & ->)].
      { rewrite lookup_empty in Hk. discriminate. }
      exists p. apply Hworking in Hp as [Hp Hw]. repeat split; auto. lia.
    + intros p Hp Hw. apply (assign_lookup_is_Some operators).
      apply list_elem_of_fmap. exists p. split; [reflexivity|]. apply Hworking. now split.
  - cbv zeta.
    set (f := fun province : Province =>
                Z.min (Qceiling (inject_Z totalOperatorsNeeded
                                 * (inject_Z (operators province) / inject_Z cap)))
                      (operators province)).
    set (d0 := fold_left (fun (distribution : gmap string Z) province =>
                            <[id province := f province]> distribution)
                         working (∅ : gmap string Z)).
    change (fold_left _ working ∅) with d0.
    assert (Hd0 : forall (k : string) (c : Z), d0 !! k = Some c ->
                    exists p, p ∈ provinces /\ Utils.worksDuring workingHours p = true
                              /\ id p = k /\ c <= operators p).
    { intros k c Hk. apply (assign_lookup_value f) in Hk as [Hk|(p & Hp & Hid & ->)].
      { rewrite lookup_empty in Hk. discriminate. }
      exists p. apply Hworking in Hp as [Hp Hw]. repeat split; auto. unfold f. lia. }
    assert (Hd0' : forall p, p ∈ provinces -> Utils.worksDuring workingHours p = true ->
                     is_Some (d0 !! id p)).
    { intros p Hp Hw. apply (assign_lookup_is_Some f).
      apply list_elem_of_fmap. exists p. split; [reflexivity|]. apply Hworking. now split. }
    destruct (Utils.sumValues d0 >? totalOperatorsNeeded); [|now split].
    destruct (reduceLoop_inv totalOperatorsNeeded (Utils.sortProvinces d0 working)
                d0 (Utils.sumValues d0) eq_refl) as (_ & Hdom & Hmono & _).
    split.
    + intros k count Hk.
      destruct (proj1 (Hdom k) ltac:(eauto)) as [c0 Hc0].
      destruct (Hd0 k c0 Hc0) as (p & Hp & Hw & Hid & Hle).
      exists p. repeat split; auto.
      specialize (Hmono k). unfold Utils.get in Hmono. rewrite Hk, Hc0 in Hmono.
      simpl in Hmono. lia.
    + intros p Hp Hw. apply Hdom. now apply Hd0'.
Qed.

Lemma distribution_keys_and_headcount_witness :
  is_Some (Utils.calculateOptimalDistribution 4 three_provinces_of_five [7] !! "b").
Proof.
  apply (proj2 (distribution_keys_and_headcount 4 three_provinces_of_five [7] ltac:(lia))
           (province_7_22 "b" 5)).
  - apply list_elem_of_In. right. left. reflexivity.
  - reflexivity.
Defined.

(** X11. No staffed working province is left empty: when at least one operator
    is needed and every working province has at least one operator, every
    count in the mapping is at least 1. *)
Theorem distribution_keeps_every_province_staffed
    (totalOperatorsNeeded : Z) (provinces : list Province) (workingHours : list Z) :
  1 <= totalOperatorsNeeded ->
  (forall p, p ∈ provinces -> Utils.worksDuring workingHours p = true -> 1 <= operators p) ->
  forall (k : string) (count : Z),
    Utils.calculateOptimalDistribution totalOperatorsNeeded provinces workingHours !! k
    = Some count ->
    1 <= count.
Proof.
  intros Hneed Hops k count. unfold Utils.calculateOptimalDistribution.
  set (working := List.filter (Utils.worksDuring workingHours) provinces).
  assert (Hworking : forall p, p ∈ working -> 1 <= operators p).
  { intros p Hp. unfold working in Hp. apply list_elem_of_In, filter_In in Hp as [Hp Hw].
    apply Hops; [now apply list_elem_of_In|exact Hw]. }
  clearbody working.
  destruct working as [|q l] eqn:Hl.
  { cbn [length Nat.eqb]. rewrite lookup_empty. discriminate. }
  cbn [length Nat.eqb]. rewrite <- Hl in *. clear Hl.
  set (cap := fold_left (fun sum province => sum + operators province) working 0).
  destruct (Z.geb_spec totalOperatorsNeeded cap) as [|Hcap].
  - intros Hk. apply (assign_lookup_value operators) in Hk as [Hk|(p & Hp & _ & ->)].
    { rewrite lookup_empty in Hk. discriminate. }
    now apply Hworking.
  - cbv zeta.
    set (f := fun province : Province =>
                Z.min (Qceiling (inject_Z totalOperatorsNeeded
                                 * (inject_Z (operators province) / inject_Z cap)))
                      (operators province)).
    set (d0 := fold_left (fun (distribution : gmap string Z) province =>
                            <[id province := f province]> distribution)
                         working (∅ : gmap string Z)).
    change (fold_left _ working ∅) with d0.
    assert (Hd0 : forall (k : string) (c : Z), d0 !! k = Some c -> 1 <= c).
    { intros k' c Hk. apply (assign_lookup_value f) in Hk as [Hk|(p & Hp & _ & ->)].
      { rewrite lookup_empty in Hk. discriminate. }
      specialize (Hworking p Hp). unfold f.
      rewrite ceil_share_Zdiv by lia.
      assert (1 <= totalOperatorsNeeded * operators p) by nia.
      Z.div_mod_to_equations. nia. }
    destruct (Utils.sumValues d0 >? totalOperatorsNeeded); [|apply Hd0].
    intros Hk.
    destruct (reduceLoop_inv totalOperatorsNeeded (Utils.sortProvinces d0 working)
                d0 (Utils.sumValues d0) eq_refl) as (_ & Hdom & _ & _).
    destruct (proj1 (Hdom k) ltac:(eauto)) as [c0 Hc0].
    pose proof (reduceLoop_keeps_one totalOperatorsNeeded (Utils.sortProvinces d0 working)
                  k d0 (Utils.sumValues d0)) as Hone.
    unfold Utils.get in Hone. rewrite Hk, Hc0 in Hone. simpl in Hone.
    apply Hone. now apply (Hd0 k).
Qed.

Lemma distribution_keeps_every_province_staffed_witness :
  Utils.calculateOptimalDistribution 1 three_single_operator_provinces [7] !! "a" = Some 1
  /\ 1 <= 1.
Proof.
  assert (Hk : Utils.calculateOptimalDistribution 1 three_single_operator_provinces [7] !! "a"
               = Some 1) by (vm_compute; reflexivity).
  split; [exact Hk|].
  apply (distribution_keeps_every_province_staffed 1 three_single_operator_provinces [7]
           ltac:(lia)) with (k := "a"); [|exact Hk].
  intros p Hp _. unfold three_single_operator_provinces in Hp.
  apply list_elem_of_In in Hp. simpl in Hp.
  destruct Hp as [<-|[<-|[<-|[]]]]; simpl; lia.
Defined.

(** * Further properties: the distribution page *)

Section PageMore.

Lemma slice0_sublist {A} (n : Z) (l : list A) : JS.slice0 n l `sublist_of` l.
Proof. unfold JS.slice0. destruct (n <? 0); apply sublist_take. Qed.

Lemma slice0_length {A} (n : Z) (l : list A) :
  0 <= n -> Z.of_nat (length (JS.slice0 n l)) <= n.
Proof. intros Hn. rewrite slice0_nonneg by exact Hn. rewrite length_take. lia. Qed.

Lemma filter_length {A} (f : A -> bool) (l : list A) :
  (length (List.filter f l) <= length l)%nat.
Proof. apply sublist_length, filter_sublist. Qed.

Lemma operatorsOnBreak_le (period : DistributionPeriod) (entry : ProvinceDistribution) :
  Page.operatorsOnBreak period entry <= Z.of_nat (length (pd_operatorShifts entry)).
Proof. unfold Page.operatorsOnBreak. pose proof (filter_length
         (fun shift => Page.isOperatorOnBreak shift (hour period)) (pd_operatorShifts entry)).
       lia.
Qed.

Lemma setRoster_lookup_unique (f : Province -> list OperatorShift) (l : list Province) :
  forall (m : gmap string (list OperatorShift)) (p : Province),
    NoDup (map id l) -> p ∈ l ->
    fold_left (fun acc province => <[id province := f province]> acc) l m !! id p
    = Some (f p).
Proof.
  induction l as [|q l IH]; intros m p Hnd Hin; simpl; [inversion Hin|].
  simpl in Hnd. apply NoDup_cons in Hnd as [Hq Hnd].
  apply elem_of_cons in Hin as [->|Hin]; [|now apply IH].
  clear IH Hnd. revert m. induction l as [|r l IHl]; intros m; simpl.
  - apply lookup_insert_eq.
  - simpl in Hq. apply not_elem_of_cons in Hq as [Hne Hq].
    rewrite insert_insert_ne by congruence. now apply IHl.
Qed.

Lemma calculate_entry (zone : Zone) (callVolumeData : list CallVolumeItem)
    (parameters : option SystemParameters) (period : DistributionPeriod) :
  period ∈ snd (Page.calculate zone callVolumeData parameters) ->
  exists averageResponseRate standardBreakTime,
    period_provinces period
    = map (Page.provinceDistribution (provinces zone)
             (fst (Page.calculate zone callVolumeData parameters))
             averageResponseRate standardBreakTime (totalCallVolume period) (hour period))
          (provinces zone).
Proof.
  unfold Page.calculate. cbn [fst snd]. intros Hperiod.
  apply list_elem_of_fmap in Hperiod as (h & -> & _).
  cbn [period_provinces totalCallVolume hour]. eauto.
Qed.

Lemma provinceDistribution_consistent (st : PageState) (period : DistributionPeriod)
    (zoneProvinces : list Province) (rate sbt callVolume : Z) (province : Province) :
  consistentEntry st period
    (Page.provinceDistribution zoneProvinces (operatorShifts st) rate sbt callVolume
       (hour period) province).
Proof.
  unfold consistentEntry, Page.provinceDistribution, Page.activeOperators.
  cbn [pd_operators pd_operatorShifts provinceId].
  set (entry := {| provinceId := _ |}).
  pose proof (operatorsOnBreak_le period entry) as Hbreak.
  subst entry. cbn [pd_operatorShifts] in Hbreak.
  repeat split; try lia.
  etransitivity; [apply slice0_sublist|apply filter_sublist].
Qed.

End PageMore.

(** X12. In every state that the page can reach, by loading zones, selecting
    a zone, calculating and adjusting counts, every entry of the table has a
    count that is not negative, shows no more shifts than its count, shows
    only shifts of the stored roster of its province, and has an "Active
    Operators" cell (count minus operators on break) that is not negative. *)
Theorem reachable_entries_consistent (st : PageState) :
  Page.reachable st ->
  forall (period : DistributionPeriod) (entry : ProvinceDistribution),
    period ∈ distribution st ->
    entry ∈ period_provinces period ->
    consistentEntry st period entry.
Proof.
  induction 1 as [|st zs _ IH|st z _ IH|st callVolumeData parameters _ IH
                  |st hourIndex provinceIndex change st' _ IH Hchange];
    intros period entry Hperiod Hentry.
  - inversion Hperiod.
  - exact (IH period entry Hperiod Hentry).
  - exact (IH period entry Hperiod Hentry).
  - unfold Page.handleCalculate in *.
    destruct (String.eqb (selectedZone st) ""); [now apply IH|].
    destruct (List.find _ (zones st)) as [zone|]; [|now apply IH].
    destruct (Page.calculate zone callVolumeData parameters) as [shifts table] eqn:Hcalc.
    cbn [distribution] in Hperiod.
    assert (Hin : period ∈ snd (Page.calculate zone callVolumeData parameters))
      by now rewrite Hcalc.
    apply calculate_entry in Hin as (rate & sbt & Heq).
    rewrite Heq, Hcalc in Hentry. cbn [fst] in Hentry.
    apply list_elem_of_fmap in Hentry as (province & -> & _).
    apply (provinceDistribution_consistent
             {| zones := zones st; selectedZone := selectedZone st; calculated := true;
                distribution := table; operatorShifts := shifts |}).
  - unfold Page.handleOperatorChange in Hchange.
    destruct (distribution st !! hourIndex) as [period0|] eqn:Hp0; [|discriminate].
    cbn [mbind option_bind] in Hchange.
    destruct (period_provinces period0 !! provinceIndex) as [entry0|] eqn:He0; [|discriminate].
    cbn [mbind option_bind] in Hchange.
    destruct (match List.find _ (zones st) with Some _ => _ | None => _ end)
      as [maxOperators|]; [|discriminate].
    cbn [mbind option_bind] in Hchange. injection Hchange as <-.
    cbn [distribution operatorShifts] in *.
    set (newOperators := Z.max 0 (Z.min (pd_operators entry0 + change) maxOperators)) in *.
    assert (Hold : forall e, e ∈ period_provinces period0 -> consistentEntry st period0 e).
    { intros e He. apply IH; [|exact He]. apply list_elem_of_lookup. eauto. }
    apply list_elem_of_lookup in Hperiod as [j Hj].
    destruct (decide (j = hourIndex)) as [->|Hne].
    + rewrite list_lookup_insert_eq in Hj by (now apply lookup_lt_Some with period0).
      injection Hj as <-. cbn [period_provinces] in Hentry.
      apply list_elem_of_lookup in Hentry as [i Hi].
      destruct (decide (i = provinceIndex)) as [->|Hne].
      * rewrite list_lookup_insert_eq in Hi by (now apply lookup_lt_Some with entry0).
        injection Hi as <-.
        unfold consistentEntry, Page.activeOperators.
        cbn [pd_operators pd_operatorShifts provinceId operatorShifts].
        set (entry' := {| provinceId := _ |}).
        set (period' := {| hour := _ |}).
        pose proof (operatorsOnBreak_le period' entry') as Hbreak.
        subst entry'. cbn [pd_operatorShifts] in Hbreak.
        pose proof (slice0_length newOperators
                      (List.filter (Page.activeDuringHour (hour period0))
                         (default [] (operatorShifts st !! provinceId entry0)))
                      ltac:(unfold newOperators; lia)) as Hlen.
        repeat split; try (unfold newOperators; lia); try lia.
        etransitivity; [apply slice0_sublist|apply filter_sublist].
      * rewrite list_lookup_insert_ne in Hi by congruence.
        destruct (Hold entry) as (H1 & H2 & H3 & H4).
        { apply list_elem_of_lookup. eauto. }
        repeat split; assumption.
    + rewrite list_lookup_insert_ne in Hj by congruence.
      destruct (IH period entry) as (H1 & H2 & H3 & H4);
        [apply list_elem_of_lookup; eauto|exact Hentry|].
      repeat split; assumption.
Qed.

Lemma reachable_entries_consistent_witness :
  consistentEntry page_of_twelve period_at_seven entry_at_seven.
Proof.
  apply (reachable_entries_consistent page_of_twelve).
  - apply (Page.reach_calculate
             (Page.setSelectedZone (Page.setZones Page.initialState [zone_of_twelve]) "z1")).
    apply Page.reach_select, Page.reach_zones, Page.reach_initial.
  - apply list_elem_of_In. vm_compute. left. reflexivity.
  - apply list_elem_of_In. left. reflexivity.
Defined.

(** X13. [handleOperatorChange] completes exactly when the hour index and the
    province index are inside the table and, if the selected zone is found,
    the province index is inside the zone's province list; otherwise it
    throws and the state is not updated. *)
Theorem handleOperatorChange_succeeds_iff
    (st : PageState) (hourIndex provinceIndex : nat) (change : Z) :
  is_Some (Page.handleOperatorChange st hourIndex provinceIndex change)
  <-> exists period entry,
        distribution st !! hourIndex = Some period
        /\ period_provinces period !! provinceIndex = Some entry
        /\ (forall z,
               List.find (fun z => String.eqb (zone_ident z) (selectedZone st)) (zones st)
               = Some z ->
               (provinceIndex < length (provinces z))%nat).
Proof.
  unfold Page.handleOperatorChange. split.
  - intros [st' Hrun].
    destruct (distribution st !! hourIndex) as [period|]; [|discriminate].
    cbn [mbind option_bind] in Hrun.
    destruct (period_provinces period !! provinceIndex) as [entry|] eqn:Hentry;
      [|discriminate].
    cbn [mbind option_bind] in Hrun.
    exists period, entry. split; [reflexivity|]. split; [exact Hentry|].
    intros z Hz. rewrite Hz in Hrun.
    destruct (provinces z !! provinceIndex) as [q|] eqn:Hq; [|discriminate].
    now apply lookup_lt_Some with q.
  - intros (period & entry & -> & Hentry & Hzone). cbn [mbind option_bind].
    rewrite Hentry. cbn [mbind option_bind].
    destruct (List.find _ (zones st)) as [z|]; [|cbn; eauto].
    destruct (lookup_lt_is_Some_2 (provinces z) provinceIndex (Hzone z eq_refl)) as [q ->].
    cbn. eauto.
Qed.

Lemma handleOperatorChange_succeeds_iff_witness :
  is_Some (Page.handleOperatorChange page_of_twelve 0 0 20)
  /\ ~ is_Some (Page.handleOperatorChange page_of_twelve 15 0 20).
Proof.
  split.
  - apply (handleOperatorChange_succeeds_iff page_of_twelve 0 0 20).
    exists period_at_seven, entry_at_seven. split; [vm_compute; reflexivity|].
    split; [reflexivity|]. intros z Hz. vm_compute in Hz. injection Hz as <-. simpl. lia.
  - intros Hrun. apply (handleOperatorChange_succeeds_iff page_of_twelve 15 0 20) in Hrun
      as (period & entry & Hperiod & _).
    vm_compute in Hperiod. discriminate.
Defined.

(** X14. The adjusted count is the old count plus the change, clamped between
    0 and the head count of the zone's province at that index (0 when no zone
    is selected), and the break time of the entry is recomputed from it with
    the constant 10 as [floor (count / 6) * 10]. *)
Theorem handleOperatorChange_clamps
    (st st' : PageState) (hourIndex provinceIndex : nat) (change : Z)
    (period : DistributionPeriod) (entry : ProvinceDistribution) :
  Page.handleOperatorChange st hourIndex provinceIndex change = Some st' ->
  distribution st !! hourIndex = Some period ->
  period_provinces period !! provinceIndex = Some entry ->
  let headCount :=
    match List.find (fun z => String.eqb (zone_ident z) (selectedZone st)) (zones st) with
    | Some z => default 0 (operators <$> provinces z !! provinceIndex)
    | None => 0
    end in
  exists period' entry',
    distribution st' !! hourIndex = Some period'
    /\ period_provinces period' !! provinceIndex = Some entry'
    /\ hour period' = hour period
    /\ provinceId entry' = provinceId entry
    /\ pd_operators entry' = Z.max 0 (Z.min (pd_operators entry + change) headCount)
    /\ 0 <= pd_operators entry' <= Z.max 0 headCount
    /\ pd_breakTime entry' = pd_operators entry' / 6 * 10.
Proof.
  intros Hrun Hperiod Hentry. unfold Page.handleOperatorChange in Hrun.
  rewrite Hperiod in Hrun. cbn [mbind option_bind] in Hrun.
  rewrite Hentry in Hrun. cbn [mbind option_bind] in Hrun.
  cbv zeta.
  destruct (List.find _ (zones st)) as [z|].
  - destruct (provinces z !! provinceIndex) as [q|]; [|discriminate].
    cbn [mbind option_bind fmap option_fmap option_map] in Hrun. injection Hrun as <-. cbn [distribution].
    eexists _, _.
    split; [apply list_lookup_insert_eq; now apply lookup_lt_Some with period|].
    cbn [period_provinces].
    split; [apply list_lookup_insert_eq; now apply lookup_lt_Some with entry|].
    cbn [hour provinceId pd_operators pd_breakTime default fmap option_fmap option_map].
    rewrite floor_div_Zdiv by lia.
    unfold Datatypes.id. destruct (Z.eqb_spec (operators q) 0); repeat split; lia.
  - cbn [mbind option_bind fmap option_fmap option_map] in Hrun. injection Hrun as <-. cbn [distribution].
    eexists _, _.
    split; [apply list_lookup_insert_eq; now apply lookup_lt_Some with period|].
    cbn [period_provinces].
    split; [apply list_lookup_insert_eq; now apply lookup_lt_Some with entry|].
    cbn [hour provinceId pd_operators pd_breakTime].
    rewrite floor_div_Zdiv by lia. repeat split; lia.
Qed.

Lemma handleOperatorChange_clamps_witness :
  exists st' period' entry',
    Page.handleOperatorChange page_of_twelve 0 0 20 = Some st'
    /\ distribution st' !! 0%nat = Some period'
    /\ period_provinces period' !! 0%nat = Some entry'
    /\ pd_operators entry' = 12.
Proof.
  destruct (Page.handleOperatorChange page_of_twelve 0 0 20) as [st'|] eqn:Hrun;
    [|vm_compute in Hrun; discriminate].
  destruct (handleOperatorChange_clamps page_of_twelve st' 0 0 20
              period_at_seven entry_at_seven Hrun)
    as (period' & entry' & Hp & He & _ & _ & Hcount & _).
  - vm_compute. reflexivity.
  - reflexivity.
  - exists st', period', entry'. repeat split; assumption.
Defined.

Lemma page_generate_length (province : Province) (operatorCount : Z) :
  Z.of_nat (length (Page.generateOperatorShifts province operatorCount))
  <= Z.max 0 operatorCount.
Proof.
  unfold Page.generateOperatorShifts. destruct (Z.leb_spec operatorCount 0); [simpl; lia|].
  pose proof (shiftLoop_length (Page.shiftBody province) (Z.to_nat operatorCount) 0). lia.
Qed.

Lemma calculate_lookup_entry (zone : Zone) (callVolumeData : list CallVolumeItem)
    (parameters : option SystemParameters) (period : DistributionPeriod)
    (k : nat) (province : Province) (entry : ProvinceDistribution) :
  period ∈ snd (Page.calculate zone callVolumeData parameters) ->
  provinces zone !! k = Some province ->
  period_provinces period !! k = Some entry ->
  exists averageResponseRate standardBreakTime,
    entry = Page.provinceDistribution (provinces zone)
              (fst (Page.calculate zone callVolumeData parameters))
              averageResponseRate standardBreakTime (totalCallVolume period) (hour period)
              province.
Proof.
  intros Hperiod Hprov Hentry.
  apply calculate_entry in Hperiod as (rate & sbt & Heq).
  rewrite Heq, list_lookup_fmap, Hprov in Hentry. injection Hentry as <-. eauto.
Qed.

(** X15. At an hour outside a province's working window the calculated entry
    of the province is empty: zero operators, no shifts and no break time,
    whatever the call volume. *)
Theorem calculate_outside_window
    (zone : Zone) (callVolumeData : list CallVolumeItem)
    (parameters : option SystemParameters) (period : DistributionPeriod)
    (k : nat) (province : Province) (entry : ProvinceDistribution) :
  period ∈ snd (Page.calculate zone callVolumeData parameters) ->
  provinces zone !! k = Some province ->
  period_provinces period !! k = Some entry ->
  ~ (work_start_time province <= hour period < work_end_time province) ->
  pd_operators entry = 0 /\ pd_operatorShifts entry = [] /\ pd_breakTime entry = 0.
Proof.
  intros Hperiod Hprov Hentry Hout.
  destruct (calculate_lookup_entry _ _ _ _ _ _ _ Hperiod Hprov Hentry) as (rate & sbt & ->).
  unfold Page.provinceDistribution.
  cbn [pd_operators pd_operatorShifts pd_breakTime].
  destruct (Z.geb_spec (hour period) (work_start_time province));
    destruct (Z.ltb_spec (hour period) (work_end_time province)); try lia;
    cbn [andb]; rewrite floor_div_Zdiv by lia; repeat split.
Qed.

Lemma calculate_outside_window_witness :
  pd_operators entry_late_at_seven = 0
  /\ pd_operatorShifts entry_late_at_seven = []
  /\ pd_breakTime entry_late_at_seven = 0.
Proof.
  apply (calculate_outside_window zone_late calls_at_seven None period_late_at_seven 0
           late_province entry_late_at_seven).
  - apply list_elem_of_In. vm_compute. left. reflexivity.
  - reflexivity.
  - reflexivity.
  - simpl. lia.
Defined.

(** X16. The calculated table has one row for each of the hours 7 to 21, in
    order; every row has one entry for each province of the zone, in the
    zone's order and under the province's id; and, the ids of the zone being
    distinct, the stored roster of a province is what the page's generator
    emits for its full head count. *)
Theorem calculate_table_shape
    (zone : Zone) (callVolumeData : list CallVolumeItem)
    (parameters : option SystemParameters) :
  map hour (snd (Page.calculate zone callVolumeData parameters))
  = [7; 8; 9; 10; 11; 12; 13; 14; 15; 16; 17; 18; 19; 20; 21]
  /\ Forall (fun period => map provinceId (period_provinces period) = map id (provinces zone))
            (snd (Page.calculate zone callVolumeData parameters))
  /\ (NoDup (map id (provinces zone)) ->
      forall p, p ∈ provinces zone ->
        fst (Page.calculate zone callVolumeData parameters) !! id p
        = Some (Page.generateOperatorShifts p (operators p))).
Proof.
  split; [reflexivity|]. split.
  - apply Forall_forall. intros period Hperiod.
    apply calculate_entry in Hperiod as (rate & sbt & ->).
    rewrite map_map. reflexivity.
  - intros Hnd p Hp. unfold Page.calculate. cbn [fst].
    now apply (setRoster_lookup_unique (fun q => Page.generateOperatorShifts q (operators q))).
Qed.

Lemma calculate_table_shape_witness :
  fst (Page.calculate zone_of_twelve calls_at_seven None) !! "a"
  = Some (Page.generateOperatorShifts (province_7_22 "a" 12) 12).
Proof.
  refine (proj2 (proj2 (calculate_table_shape zone_of_twelve calls_at_seven None))
            _ (province_7_22 "a" 12) _).
  - apply (bool_decide_unpack _). vm_compute. exact I.
  - apply list_elem_of_In. left. reflexivity.
Defined.

(** X17. The ids of the zone being distinct, the operator count that the
    calculation displays for a province is between 0 and the province's head
    count, at every hour and for every call volume and parameter value. *)
Theorem calculate_within_headcount
    (zone : Zone) (callVolumeData : list CallVolumeItem)
    (parameters : option SystemParameters) (period : DistributionPeriod)
    (k : nat) (province : Province) (entry : ProvinceDistribution) :
  NoDup (map id (provinces zone)) ->
  period ∈ snd (Page.calculate zone callVolumeData parameters) ->
  provinces zone !! k = Some province ->
  period_provinces period !! k = Some entry ->
  0 <= pd_operators entry <= Z.max 0 (operators province).
Proof.
  intros Hnd Hperiod Hprov Hentry.
  destruct (calculate_lookup_entry _ _ _ _ _ _ _ Hperiod Hprov Hentry) as (rate & sbt & ->).
  unfold Page.provinceDistribution. cbn [pd_operators].
  assert (Hroster : fst (Page.calculate zone callVolumeData parameters) !! id province
                    = Some (Page.generateOperatorShifts province (operators province))).
  { unfold Page.calculate. cbn [fst].
    apply (setRoster_lookup_unique (fun q => Page.generateOperatorShifts q (operators q)));
      [exact Hnd|]. apply list_elem_of_lookup. eauto. }
  rewrite Hroster. cbn [default from_option Datatypes.id].
  split; [lia|].
  etransitivity; [|apply (page_generate_length province (operators province))].
  apply Nat2Z.inj_le.
  etransitivity; [apply sublist_length, slice0_sublist|apply filter_length].
Qed.

Lemma calculate_within_headcount_witness :
  0 <= pd_operators entry_at_seven <= Z.max 0 12.
Proof.
  apply (calculate_within_headcount zone_of_twelve calls_at_seven None period_at_seven 0
           (province_7_22 "a" 12) entry_at_seven).
  - apply (bool_decide_unpack _). vm_compute. exact I.
  - apply list_elem_of_In. vm_compute. left. reflexivity.
  - reflexivity.
  - reflexivity.
Defined.

Section PageShiftHours.

Variables (province : Province) (i : Z) (s : OperatorShift).

Hypothesis window_start : 0 <= work_start_time province.
Hypothesis index_nonneg : 0 <= i.
Hypothesis body_i : Page.shiftBody province i = Some s.

Let startHour := work_start_time province + i * 15 / 60.
Let startMinute := (i * 15) mod 60.

Lemma page_body_start :
  0 <= startHour /\ 0 <= startMinute < 60 /\ shiftId s = i + 1.
Proof.
  unfold startHour, startMinute. split; [|split].
  - assert (0 <= i * 15 / 60) by (apply Z.div_pos; lia). lia.
  - apply Z.mod_pos_bound. lia.
  - revert body_i. unfold Page.shiftBody. destruct (_ >=? _); [discriminate|].
    now intros [= <-].
Qed.

Lemma page_body_active (h : Z) :
  Page.activeDuringHour h s = true
  <-> (startHour < h \/ (startHour = h /\ startMinute = 0))
      /\ h < (startHour * 60 + startMinute + 420) mod 1440 / 60.
Proof.
  destruct page_body_start as (HH & HM & _). unfold startHour, startMinute in *.
  revert body_i. unfold Page.shiftBody. rewrite !floor_div_Zdiv by lia. unfold JS.rem.
  destruct (_ >=? _); [discriminate|]. intros [= <-].
  unfold Page.activeDuringHour. cbn [startTime endTime].
  rewrite !page_parseTime_formatTime. cbn [fst snd Page.num_lt Page.num_eq].
  change (24 * 60) with 1440.
  rewrite (Z.rem_mod_nonneg (i * 15)) by lia.
  rewrite (Z.rem_mod_nonneg (_ + 420)) by lia.
  rewrite andb_true_iff, orb_true_iff, andb_true_iff.
  rewrite !Z.ltb_lt, !Z.eqb_eq. tauto.
Qed.

Lemma page_body_onBreak (h : Z) :
  Page.isOperatorOnBreak s h = true
  <-> exists j, 1 <= j <= 4 /\ h = (startHour + j) mod 24.
Proof.
  destruct page_body_start as (HH & HM & _). unfold startHour, startMinute in *.
  revert body_i. unfold Page.shiftBody.
  destruct (_ >=? _); [discriminate|]. intros [= <-].
  unfold Page.isOperatorOnBreak. cbn [breakSchedule firstBreak secondBreak
                                        thirdBreak fourthBreak].
  rewrite !page_checkBreakTime_eq.
  change (Page.breakTime ?a ?b) with (fun j => Utils.breakTime a b 60 j). cbv beta.
  rewrite !floor_div_Zdiv by lia. unfold JS.rem.
  rewrite (Z.rem_mod_nonneg (i * 15)) by lia.
  rewrite !checkBreakTime_breakTime by nia.
  change (0 + 1) with 1. change (1 + 1) with 2. change (2 + 1) with 3. change (3 + 1) with 4.
  rewrite !orb_true_iff, !Z.eqb_eq.
  assert (Hhour : forall j, 0 <= j ->
             ((work_start_time province + i * 15 / 60) * 60 + (i * 15) mod 60 + j * 60)
               mod 1440 / 60
             = (work_start_time province + i * 15 / 60 + j) mod 24)
    by (intros j Hj; Z.div_mod_to_equations; lia).
  rewrite !Hhour by lia. split.
  - intros [[[<-|<-]|<-]|<-]; [exists 1|exists 2|exists 3|exists 4]; (split; [lia|reflexivity]).
  - intros (j & Hj & ->).
    assert (Hcases : j = 1 \/ j = 2 \/ j = 3 \/ j = 4) by lia.
    destruct Hcases as [->|[->|[->| ->]]]; tauto.
Qed.

End PageShiftHours.

(** X18. A shift of the page that runs past midnight is never counted as
    active: when the start hour is between 17 and 23, so that the end time
    wraps to the early morning, the active-during-hour test fails at every
    hour. *)
Theorem late_shift_never_active
    (province : Province) (operatorCount : Z) (s : OperatorShift) (h : Z) :
  0 <= work_start_time province ->
  s ∈ Page.generateOperatorShifts province operatorCount ->
  17 <= work_start_time province + (shiftId s - 1) * 15 / 60 <= 23 ->
  Page.activeDuringHour h s = false.
Proof.
  intros Hws. unfold Page.generateOperatorShifts.
  destruct (operatorCount <=? 0); [intros H; inversion H|].
  intros Hin. revert h. pattern s. revert s Hin. apply Forall_forall.
  apply shiftLoop_Forall_from. intros i s Hi Hbody h Hlate.
  destruct (page_body_start province i s Hws Hi Hbody) as (_ & HM & Hid).
  rewrite Hid in Hlate. replace (i + 1 - 1) with i in Hlate by lia.
  apply not_true_is_false. rewrite (page_body_active province i s Hws Hi Hbody).
  intros [Hstart Hend].
  set (X := (work_start_time province + i * 15 / 60) * 60 + (i * 15) mod 60 + 420) in *.
  assert (Hmod : X mod 1440 = X - 1440)
    by (symmetry; apply (Z.mod_unique X 1440 1); unfold X; lia).
  rewrite Hmod in Hend.
  assert ((X - 1440) / 60 < 7) by (apply Z.div_lt_upper_bound; unfold X; lia).
  lia.
Qed.

Lemma late_shift_never_active_witness :
  Page.activeDuringHour 18
    {| shiftId := 41; startTime := "17:00"; endTime := "00:00"; duration := 420;
       breakSchedule :=
         {| firstBreak := "18:00-18:10"; secondBreak := "19:00-19:10";
            thirdBreak := "20:00-20:10"; fourthBreak := "21:00-21:10" |} |}
  = false.
Proof.
  apply (late_shift_never_active (province_7_22 "a" 41) 41).
  - simpl. lia.
  - apply list_elem_of_In. vm_compute. tauto.
  - change (17 <= 17 <= 23). lia.
Defined.

(** X19. For a shift of the page that ends before midnight (start hour at
    most 16), every hour in which the operator is on break is an hour in
    which the operator is counted as active. *)
Theorem break_hours_are_active_hours
    (province : Province) (operatorCount : Z) (s : OperatorShift) (h : Z) :
  0 <= work_start_time province ->
  s ∈ Page.generateOperatorShifts province operatorCount ->
  work_start_time province + (shiftId s - 1) * 15 / 60 <= 16 ->
  Page.isOperatorOnBreak s h = true ->
  Page.activeDuringHour h s = true.
Proof.
  intros Hws. unfold Page.generateOperatorShifts.
  destruct (operatorCount <=? 0); [intros H; inversion H|].
  intros Hin. revert h. pattern s. revert s Hin. apply Forall_forall.
  apply shiftLoop_Forall_from. intros i s Hi Hbody h Hearly.
  destruct (page_body_start province i s Hws Hi Hbody) as (HH & HM & Hid).
  rewrite Hid in Hearly. replace (i + 1 - 1) with i in Hearly by lia.
  rewrite (page_body_onBreak province i s Hws Hi Hbody).
  rewrite (page_body_active province i s Hws Hi Hbody).
  intros (j & Hj & ->). Z.div_mod_to_equations. lia.
Qed.

Lemma break_hours_are_active_hours_witness :
  Page.activeDuringHour 9 shift_0745 = true.
Proof.
  apply (break_hours_are_active_hours (province_7_22 "a" 4) 4 shift_0745 9).
  - simpl. lia.
  - apply list_elem_of_In. vm_compute. tauto.
  - change (7 <= 16). lia.
  - reflexivity.
Defined.
